(** * Form-filler voice agent: the session store, its tools and the data listener

    A shallow embedding of [src/agent/agent.py].  The module keeps one mutable
    [UserData] object per session; seven LLM tools ([update_name],
    [update_phone], [update_email], [get_name], [get_phone], [get_email],
    [submit_form]) and one room callback ([handle_data]) read and write it, and
    [send_to_frontend] publishes a snapshot of it on the room's data channel.

    Conventions of the embedding.
    - Python objects that the code handles are values of [pyval], the shape of
      what [json.loads] can return; Python's [None] is [PNone].
    - A Python [str] is a [string]; [bytes] is a [list byte].
    - The [UserData] object, the room's outgoing data channel and the module
      logger are the three components of [World]; code runs in the monad [M],
      which threads the world and may raise.  A mutation made before an
      exception is raised stays in the world, as in Python.
    - Library functions the module calls ([bytes.decode], [json.loads],
      [json.dumps], [str.encode], [repr]) are the fields of [PyRuntime].
    - A tool or the callback runs as one step: a tool assigns to the store and
      builds its payload before its first suspension point, and the callback
      is synchronous.  [publish_data] is taken to succeed on a connected room
      ([entrypoint] awaits [ctx.connect()] before anything else).
    - The agent's instructions and its greeting in [on_enter] do not touch the
      store and are left out. *)

From Stdlib Require Import String Ascii List ZArith Bool Lia.
From Stdlib Require Import Strings.Byte Numbers.DecimalString.
Import ListNotations.
Local Open Scope string_scope.

(** ** Python values and exceptions *)

(** IEEE-754 binary64, kept as its 64-bit pattern. *)
Definition float64 : Type := Z.

#[warnings="-register-all"]
Inductive pyval : Type :=
| PNone
| PBool (b : bool)
| PInt (z : Z)
| PFloat (f : float64)
| PStr (s : string)
| PList (xs : list pyval)
| PDict (items : list (string * pyval)).

(** Every exception the module can meet is a subclass of [Exception]. *)
Inductive exn : Type :=
| UnicodeDecodeError (msg : string)
| JSONDecodeError (msg : string)
| ValueError (msg : string)
| RecursionError (msg : string)
| AttributeError (msg : string)
| TypeError (msg : string)
| KeyError (key : string).

(** [type(v).__name__] *)
Definition type_name (v : pyval) : string :=
  match v with
  | PNone => "NoneType"
  | PBool _ => "bool"
  | PInt _ => "int"
  | PFloat _ => "float"
  | PStr _ => "str"
  | PList _ => "list"
  | PDict _ => "dict"
  end.

(** [v is None] *)
Definition is_None (v : pyval) : bool :=
  match v with
  | PNone => true
  | _ => false
  end.

(** [v == s] for a [str] literal [s]: only an equal [str] compares equal. *)
Definition py_eq_str (v : pyval) (s : string) : bool :=
  match v with
  | PStr t => String.eqb t s
  | _ => false
  end.

(** Lookup in a dict, kept as its items in insertion order. *)
Fixpoint dict_lookup (k : string) (items : list (string * pyval)) : option pyval :=
  match items with
  | [] => None
  | (k', v) :: rest => if String.eqb k k' then Some v else dict_lookup k rest
  end.

(** ** The library functions the module calls *)

Class PyRuntime : Type := {
  (** [b.decode("utf-8")] *)
  bytes_decode_utf8 : list byte -> exn + string;
  (** [json.loads(s)] *)
  json_loads : string -> exn + pyval;
  (** [json.dumps(v)]; it does not raise on a value of [pyval]. *)
  json_dumps : pyval -> string;
  (** [s.encode("utf-8")] *)
  str_encode_utf8 : string -> list byte;
  (** [repr(v)] *)
  py_repr : pyval -> string
}.

(** ** The session's data *)

(** [JobContext]: of the job, only the room it is connected to matters here. *)
Record JobContext : Type := { room : string }.

(** The dataclass [UserData].  The three customer fields are annotated
    [Optional[str]], but [handle_data] assigns whatever [obj["value"]] is, so
    they hold a [pyval]. *)
Record UserData : Type := {
  ctx : option JobContext;
  customer_name : pyval;
  customer_phone : pyval;
  customer_email : pyval;
  should_submit : bool
}.

(** One call of [local_participant.publish_data(payload, reliable=...)]. *)
Record DataPublish : Type := {
  pub_room : string;
  payload : list byte;
  reliable : bool
}.

Inductive loglevel : Type := INFO | ERROR.

Record LogRecord : Type := {
  levelname : loglevel;
  message : string
}.

(** [rtc.DataPacket]: the handler reads only [packet.data]. *)
Record DataPacket : Type := { data : list byte }.

Record World : Type := {
  userdata : UserData;
  published : list DataPublish;
  log : list LogRecord
}.

(** ** The monad of the module's code *)

Definition M (A : Type) : Type := World -> (exn + A) * World.

Definition ret {A : Type} (a : A) : M A := fun w => (inr a, w).

Definition bind {A B : Type} (m : M A) (k : A -> M B) : M B :=
  fun w =>
    match m w with
    | (inl e, w') => (inl e, w')
    | (inr a, w') => k a w'
    end.

Definition raise {A : Type} (e : exn) : M A := fun w => (inl e, w).

(** The value or the exception of a library call. *)
Definition lift {A : Type} (r : exn + A) : M A := fun w => (r, w).

(** [try: body  except Exception as e: handler e] *)
Definition try_except {A : Type} (body : M A) (handler : exn -> M A) : M A :=
  fun w =>
    match body w with
    | (inl e, w') => handler e w'
    | (inr a, w') => (inr a, w')
    end.

Declare Scope py_scope.
Delimit Scope py_scope with py.
Notation "x <- c ;; k" := (bind c (fun x => k))
  (at level 100, c at next level, right associativity) : py_scope.
Notation "c ;;; k" := (bind c (fun _ => k))
  (at level 100, right associativity) : py_scope.
Local Open Scope py_scope.

Definition get_userdata : M UserData := fun w => (inr (userdata w), w).

Definition put_userdata (u : UserData) : M unit :=
  fun w => (inr tt, {| userdata := u; published := published w; log := log w |}).

Definition set_customer_name (v : pyval) : M unit :=
  u <- get_userdata ;;
  put_userdata {| ctx := ctx u; customer_name := v;
                  customer_phone := customer_phone u;
                  customer_email := customer_email u;
                  should_submit := should_submit u |}.

Definition set_customer_phone (v : pyval) : M unit :=
  u <- get_userdata ;;
  put_userdata {| ctx := ctx u; customer_name := customer_name u;
                  customer_phone := v;
                  customer_email := customer_email u;
                  should_submit := should_submit u |}.

Definition set_customer_email (v : pyval) : M unit :=
  u <- get_userdata ;;
  put_userdata {| ctx := ctx u; customer_name := customer_name u;
                  customer_phone := customer_phone u;
                  customer_email := v;
                  should_submit := should_submit u |}.

Definition set_should_submit (b : bool) : M unit :=
  u <- get_userdata ;;
  put_userdata {| ctx := ctx u; customer_name := customer_name u;
                  customer_phone := customer_phone u;
                  customer_email := customer_email u;
                  should_submit := b |}.

(** [room.local_participant.publish_data(payload, reliable=r)] *)
Definition publish_data (c : JobContext) (bs : list byte) (r : bool) : M unit :=
  fun w =>
    (inr tt,
     {| userdata := userdata w;
        published := published w ++ [{| pub_room := room c; payload := bs; reliable := r |}];
        log := log w |}).

(** [logger.info(msg)] and [logger.error(msg)]; the logger's level is [INFO],
    so both are recorded. *)
Definition logger_emit (l : loglevel) (msg : string) : M unit :=
  fun w =>
    (inr tt,
     {| userdata := userdata w;
        published := published w;
        log := log w ++ [{| levelname := l; message := msg |}] |}).

Definition logger_info : string -> M unit := logger_emit INFO.
Definition logger_error : string -> M unit := logger_emit ERROR.

Section Agent.

Context {rt : PyRuntime}.

(** [str(v)], as an f-string field [{v}] renders it. *)
Definition py_str (v : pyval) : string :=
  match v with
  | PStr s => s
  | PNone => "None"
  | PBool true => "True"
  | PBool false => "False"
  | _ => py_repr v
  end.

(** [str(e)] *)
Definition exn_str (e : exn) : string :=
  match e with
  | UnicodeDecodeError msg => msg
  | JSONDecodeError msg => msg
  | ValueError msg => msg
  | RecursionError msg => msg
  | AttributeError msg => msg
  | TypeError msg => msg
  | KeyError key => py_repr (PStr key)
  end.

Definition no_attribute (v : pyval) (attr : string) : exn :=
  AttributeError ("'" ++ type_name v ++ "' object has no attribute '" ++ attr ++ "'").

(** [obj.get(key)]: only a dict has the method. *)
Definition py_get (obj : pyval) (key : string) : M pyval :=
  match obj with
  | PDict items =>
      match dict_lookup key items with
      | Some v => ret v
      | None => ret PNone
      end
  | _ => raise (no_attribute obj "get")
  end.

(** [obj[key]] for a [str] key. *)
Definition py_getitem (obj : pyval) (key : string) : M pyval :=
  match obj with
  | PDict items =>
      match dict_lookup key items with
      | Some v => ret v
      | None => raise (KeyError key)
      end
  | PList _ => raise (TypeError "list indices must be integers or slices, not str")
  | PStr _ => raise (TypeError "string indices must be integers, not 'str'")
  | _ => raise (TypeError ("'" ++ type_name obj ++ "' object is not subscriptable"))
  end.

(** [userdata.ctx.room]: an [AttributeError] when [ctx] is [None]. *)
Definition ctx_room (u : UserData) : M JobContext :=
  match ctx u with
  | Some c => ret c
  | None => raise (no_attribute PNone "room")
  end.

(** ** [send_to_frontend] *)

Definition send_to_frontend : M unit :=
  u <- get_userdata ;;
  let metrics := PDict [ ("customer_name", customer_name u);
                         ("customer_phone", customer_phone u);
                         ("customer_email", customer_email u);
                         ("should_submit", PBool (should_submit u)) ] in
  let bs := str_encode_utf8 (json_dumps metrics) in
  c <- ctx_room u ;;
  publish_data c bs false.

(** ** The tools of [FormFiller] *)

Definition update_name (name : string) : M string :=
  set_customer_name (PStr name) ;;;
  send_to_frontend ;;;
  ret ("The name is updated to " ++ name).

Definition update_phone (phone : string) : M string :=
  set_customer_phone (PStr phone) ;;;
  send_to_frontend ;;;
  ret ("The phone number is updated to " ++ phone).

Definition update_email (email : string) : M string :=
  set_customer_email (PStr email) ;;;
  send_to_frontend ;;;
  ret ("The email is updated to " ++ email).

Definition get_name : M string :=
  u <- get_userdata ;;
  ret ("User's name is " ++ py_str (customer_name u)).

Definition get_phone : M string :=
  u <- get_userdata ;;
  ret ("User's phone number is " ++ py_str (customer_phone u)).

Definition get_email : M string :=
  u <- get_userdata ;;
  ret ("User's email is " ++ py_str (customer_email u)).

Definition submit_form : M string :=
  u <- get_userdata ;;
  if is_None (customer_name u) then ret "Please provide your name."
  else if is_None (customer_phone u) then ret "Please provide your phone number."
  else if is_None (customer_email u) then ret "Please provide your email."
  else
    set_should_submit true ;;;
    send_to_frontend ;;;
    ret "The form is submitted".

(** ** [entrypoint] and the [data_received] callback *)

(** [userdata = UserData(ctx=ctx)], with nothing published or logged yet. *)
Definition entrypoint (c : JobContext) : World :=
  {| userdata := {| ctx := Some c; customer_name := PNone; customer_phone := PNone;
                    customer_email := PNone; should_submit := false |};
     published := [];
     log := [] |}.

(** The [try] block of [handle_data]. *)
Definition handle_data_body (packet : DataPacket) : M unit :=
  text <- lift (bytes_decode_utf8 (data packet)) ;;
  obj <- lift (json_loads text) ;;
  logger_info ("received data: " ++ py_str obj) ;;;
  f <- py_get obj "field" ;;
  if py_eq_str f "name" then
    v <- py_getitem obj "value" ;;
    set_customer_name v ;;;
    u <- get_userdata ;;
    logger_info ("updated name: " ++ py_str (customer_name u))
  else
    f <- py_get obj "field" ;;
    if py_eq_str f "phone" then
      v <- py_getitem obj "value" ;;
      set_customer_phone v ;;;
      u <- get_userdata ;;
      logger_info ("updated phone: " ++ py_str (customer_phone u))
    else
      f <- py_get obj "field" ;;
      if py_eq_str f "email" then
        v <- py_getitem obj "value" ;;
        set_customer_email v ;;;
        u <- get_userdata ;;
        logger_info ("updated email: " ++ py_str (customer_email u))
      else
        f <- py_get obj "field" ;;
        logger_error ("unknown field: " ++ py_str f).

Definition handle_data (packet : DataPacket) : M unit :=
  try_except
    (handle_data_body packet)
    (fun e => logger_error ("failed to parse data packet: " ++ exn_str e)).

(** ** A session as a sequence of events *)

(** What the agent runtime and the room drive the module with: a tool call
    made by the language model, or a data packet from a remote participant. *)
Inductive Event : Type :=
| CallUpdateName (name : string)
| CallUpdatePhone (phone : string)
| CallUpdateEmail (email : string)
| CallGetName
| CallGetPhone
| CallGetEmail
| CallSubmitForm
| DataReceived (packet : DataPacket).

(** The tools return a [str], the callback returns [None]. *)
Definition dispatch (e : Event) : M pyval :=
  match e with
  | CallUpdateName name => r <- update_name name ;; ret (PStr r)
  | CallUpdatePhone phone => r <- update_phone phone ;; ret (PStr r)
  | CallUpdateEmail email => r <- update_email email ;; ret (PStr r)
  | CallGetName => r <- get_name ;; ret (PStr r)
  | CallGetPhone => r <- get_phone ;; ret (PStr r)
  | CallGetEmail => r <- get_email ;; ret (PStr r)
  | CallSubmitForm => r <- submit_form ;; ret (PStr r)
  | DataReceived packet => handle_data packet ;;; ret PNone
  end.

(** The world after an event.  An exception that leaves a tool is reported to
    the language model by the agent runtime; the session and its store go on. *)
Definition exec (e : Event) (w : World) : World := snd (dispatch e w).

Definition run (es : list Event) (w : World) : World :=
  fold_left (fun w e => exec e w) es w.

End Agent.

(** ** Reading the store and the channel *)

(** The three customer fields, by the selector the data listener knows them by. *)
Inductive form_field : Type := FName | FPhone | FEmail.

Definition selector (f : form_field) : string :=
  match f with
  | FName => "name"
  | FPhone => "phone"
  | FEmail => "email"
  end.

(** The key of the field in the published snapshot. *)
Definition snapshot_key (f : form_field) : string :=
  match f with
  | FName => "customer_name"
  | FPhone => "customer_phone"
  | FEmail => "customer_email"
  end.

Definition field_value (f : form_field) (u : UserData) : pyval :=
  match f with
  | FName => customer_name u
  | FPhone => customer_phone u
  | FEmail => customer_email u
  end.

(** [p] carries the full snapshot of [u]: its payload is the UTF-8 encoding of
    the JSON text of an object with exactly the four keys, in this order, each
    bound to the value the store holds. *)
Definition snapshot_of {rt : PyRuntime} (u : UserData) (p : DataPublish) : Prop :=
  exists items : list (string * pyval),
    payload p = str_encode_utf8 (json_dumps (PDict items)) /\
    map fst items = ["customer_name"; "customer_phone"; "customer_email"; "should_submit"] /\
    (forall f, dict_lookup (snapshot_key f) items = Some (field_value f u)) /\
    dict_lookup "should_submit" items = Some (PBool (should_submit u)).

(** The store differs from [u] at most in field [f], which holds [v]. *)
Definition field_set (f : form_field) (v : pyval) (u u' : UserData) : Prop :=
  field_value f u' = v /\
  (forall g, g <> f -> field_value g u' = field_value g u) /\
  should_submit u' = should_submit u /\
  ctx u' = ctx u.

Definition all_set (u : UserData) : bool :=
  negb (is_None (customer_name u)) &&
  negb (is_None (customer_phone u)) &&
  negb (is_None (customer_email u)).

(** Name, phone and email are all set (none is [None]). *)
Definition complete (u : UserData) : Prop :=
  customer_name u <> PNone /\ customer_phone u <> PNone /\ customer_email u <> PNone.

(** ** A runtime to compute with

    The statements below hold for every [PyRuntime].  To run the module on
    concrete packets, [sample_runtime] tabulates [json.loads] on a few
    documents and prints values the way CPython does when every string in them
    is printable ASCII without quotes or backslashes; floats are not printed
    faithfully.  Only values it prints as CPython does are used with it. *)

Definition dq : string := String (ascii_of_nat 34) EmptyString.

Definition quoted (q s : string) : string := q ++ s ++ q.

Definition decimal (z : Z) : string := DecimalString.NilZero.string_of_int (Z.to_int z).

(** The common shape of [json.dumps(v)] and [repr(v)]: they differ in the
    quote and in the spelling of the three constants. *)
Fixpoint render (q none true_ false_ : string) (v : pyval) : string :=
  match v with
  | PNone => none
  | PBool true => true_
  | PBool false => false_
  | PInt z => decimal z
  | PFloat _ => "nan"
  | PStr s => quoted q s
  | PList xs =>
      "[" ++
      (fix elems (l : list pyval) : string :=
         match l with
         | [] => ""
         | x :: rest =>
             render q none true_ false_ x ++
             match rest with [] => "" | _ :: _ => ", " ++ elems rest end
         end) xs ++ "]"
  | PDict items =>
      "{" ++
      (fix entries (l : list (string * pyval)) : string :=
         match l with
         | [] => ""
         | (k, x) :: rest =>
             quoted q k ++ ": " ++ render q none true_ false_ x ++
             match rest with [] => "" | _ :: _ => ", " ++ entries rest end
         end) items ++ "}"
  end.

Definition sample_dumps : pyval -> string := render dq "null" "true" "false".
Definition sample_repr : pyval -> string := render "'" "None" "True" "False".

Definition is_ascii (b : byte) : bool := (Byte.to_N b <? 128)%N.

Definition sample_decode (bs : list byte) : exn + string :=
  if forallb is_ascii bs then inr (string_of_list_byte bs)
  else inl (UnicodeDecodeError "'utf-8' codec can't decode bytes").

(** The documents the sample runtime can parse, as [json.loads] parses them. *)
Definition sample_documents : list (string * pyval) :=
  [ (sample_dumps (PDict [("field", PStr "name"); ("value", PStr "Ada")]),
     PDict [("field", PStr "name"); ("value", PStr "Ada")]);
    (sample_dumps (PDict [("field", PStr "phone"); ("value", PStr "555-1234")]),
     PDict [("field", PStr "phone"); ("value", PStr "555-1234")]);
    (sample_dumps (PDict [("field", PStr "email"); ("value", PStr "ada@example.com")]),
     PDict [("field", PStr "email"); ("value", PStr "ada@example.com")]);
    (sample_dumps (PDict [("field", PStr "unknown"); ("value", PStr "x")]),
     PDict [("field", PStr "unknown"); ("value", PStr "x")]);
    (sample_dumps (PDict [("field", PStr "phone")]),
     PDict [("field", PStr "phone")]);
    (sample_dumps (PDict [("field", PStr "name"); ("value", PInt 42)]),
     PDict [("field", PStr "name"); ("value", PInt 42)]);
    (sample_dumps (PDict [("field", PStr "name"); ("value", PNone)]),
     PDict [("field", PStr "name"); ("value", PNone)]);
    (sample_dumps (PList [PInt 1; PInt 2]), PList [PInt 1; PInt 2]) ].

Definition sample_loads (s : string) : exn + pyval :=
  match dict_lookup s sample_documents with
  | Some v => inr v
  | None => inl (JSONDecodeError "Expecting value: line 1 column 1 (char 0)")
  end.

Definition sample_runtime : PyRuntime :=
  {| bytes_decode_utf8 := sample_decode;
     json_loads := sample_loads;
     json_dumps := sample_dumps;
     str_encode_utf8 := list_byte_of_string;
     py_repr := sample_repr |}.

(** A packet carrying the UTF-8 bytes of a JSON text. *)
Definition packet_of (v : pyval) : DataPacket :=
  {| data := list_byte_of_string (sample_dumps v) |}.

Definition sample_job : JobContext := {| room := "ice-cream-party" |}.

(** [{"field": "name", "value": "Ada"}] *)
Definition ada_packet : DataPacket :=
  packet_of (PDict [("field", PStr "name"); ("value", PStr "Ada")]).


(** [{"field": "name", "value": 42}]: a value that is not a string. *)
Definition number_packet : DataPacket :=
  packet_of (PDict [("field", PStr "name"); ("value", PInt 42)]).

(** [{"field": "phone"}]: a recognized selector and no value. *)
Definition valueless_packet : DataPacket :=
  packet_of (PDict [("field", PStr "phone")]).

(** [{"field": "unknown", "value": "x"}] *)
Definition unknown_packet : DataPacket :=
  packet_of (PDict [("field", PStr "unknown"); ("value", PStr "x")]).

(** ** What a packet decodes to *)

(** [json.loads(packet.data.decode("utf-8"))] *)
Definition decoded {rt : PyRuntime} (packet : DataPacket) : exn + pyval :=
  match bytes_decode_utf8 (data packet) with
  | inl e => inl e
  | inr text => json_loads text
  end.

(** The packet decodes to a JSON object whose ["field"] is the selector of [f].
    (A dict has each key once; [json.loads] keeps the last value of a key that
    the text repeats.) *)
Definition selects {rt : PyRuntime} (packet : DataPacket) (f : form_field)
    (items : list (string * pyval)) : Prop :=
  decoded packet = inr (PDict items) /\
  dict_lookup "field" items = Some (PStr (selector f)).

(** The store [u] with field [f] replaced by [v]. *)
Definition with_field (f : form_field) (v : pyval) (u : UserData) : UserData :=
  match f with
  | FName => {| ctx := ctx u; customer_name := v; customer_phone := customer_phone u;
                customer_email := customer_email u; should_submit := should_submit u |}
  | FPhone => {| ctx := ctx u; customer_name := customer_name u; customer_phone := v;
                 customer_email := customer_email u; should_submit := should_submit u |}
  | FEmail => {| ctx := ctx u; customer_name := customer_name u;
                 customer_phone := customer_phone u; customer_email := v;
                 should_submit := should_submit u |}
  end.

(** [w] with its store replaced and records appended to the log. *)
Definition stored_and_logged (u : UserData) (recs : list LogRecord) (w : World) : World :=
  {| userdata := u; published := published w; log := log w ++ recs |}.

(** The world after a successful update of field [f]: the field is stored and
    one publish [p] is appended. *)
Definition updated (f : form_field) (v : string) (p : DataPublish) (w : World) : World :=
  {| userdata := with_field f (PStr v) (userdata w);
     published := published w ++ [p];
     log := log w |}.

(** The store [u] marked as submitted. *)
Definition submitted (u : UserData) : UserData :=
  {| ctx := ctx u; customer_name := customer_name u; customer_phone := customer_phone u;
     customer_email := customer_email u; should_submit := true |}.

(** ** Sequences of store calls *)

Inductive StoreCall : Type :=
| SetField (f : form_field) (v : string)
| ReadField (f : form_field).

(** The tool call the language model makes for a store call. *)
Definition event_of_call (c : StoreCall) : Event :=
  match c with
  | SetField FName v => CallUpdateName v
  | SetField FPhone v => CallUpdatePhone v
  | SetField FEmail v => CallUpdateEmail v
  | ReadField FName => CallGetName
  | ReadField FPhone => CallGetPhone
  | ReadField FEmail => CallGetEmail
  end.

Definition form_field_eqb (f g : form_field) : bool :=
  match f, g with
  | FName, FName | FPhone, FPhone | FEmail, FEmail => true
  | _, _ => false
  end.

(** The value of the last [SetField f] in [calls], if there is one. *)
Fixpoint last_written (f : form_field) (calls : list StoreCall) : option string :=
  match calls with
  | [] => None
  | c :: rest =>
      match last_written f rest with
      | Some v => Some v
      | None =>
          match c with
          | SetField g v => if form_field_eqb g f then Some v else None
          | ReadField _ => None
          end
      end
  end.

(** A store whose customer fields are what the dataclass annotates them to be. *)
Definition fields_typed (u : UserData) : Prop :=
  forall f, field_value f u = PNone \/ exists s, field_value f u = PStr s.

(** ** Sample sessions *)

Definition fresh : World := entrypoint sample_job.

(** The text a snapshot is published as. *)
Definition published_texts (w : World) : list (string * bool) :=
  map (fun p => (string_of_list_byte (payload p), reliable p)) (published w).

Definition snapshot_text (name phone email submit : string) : string :=
  "{" ++ quoted dq "customer_name" ++ ": " ++ name ++ ", "
      ++ quoted dq "customer_phone" ++ ": " ++ phone ++ ", "
      ++ quoted dq "customer_email" ++ ": " ++ email ++ ", "
      ++ quoted dq "should_submit" ++ ": " ++ submit ++ "}".

(** The session of the specification's scenario: the name, a submit that is
    refused, the phone, the email, a submit that succeeds. *)
Definition scenario : list Event :=
  [ CallUpdateName "Ada"; CallSubmitForm; CallUpdatePhone "555-1234";
    CallUpdateEmail "ada@example.com"; CallSubmitForm ].

(** The store after the three updates of the scenario. *)
Definition filled : World :=
  @run sample_runtime
    [CallUpdateName "Ada"; CallUpdatePhone "555-1234"; CallUpdateEmail "ada@example.com"]
    fresh.

(** ** Further vocabulary for sessions *)

(** The publish that [send_to_frontend] makes from store [u] in the room of [c]. *)
Definition snapshot_publish {rt : PyRuntime} (c : JobContext) (u : UserData) : DataPublish :=
  {| pub_room := room c;
     payload :=
       str_encode_utf8
         (json_dumps (PDict [ ("customer_name", customer_name u);
                              ("customer_phone", customer_phone u);
                              ("customer_email", customer_email u);
                              ("should_submit", PBool (should_submit u)) ]));
     reliable := false |}.

(** Whether the event, met with store [u] in a session, publishes a snapshot:
    the three updates always, [submit_form] when the store is complete. *)
Definition publishes (e : Event) (u : UserData) : bool :=
  match e with
  | CallUpdateName _ | CallUpdatePhone _ | CallUpdateEmail _ => true
  | CallSubmitForm => all_set u
  | _ => false
  end.

(** The three [get_*] tool calls. *)
Definition is_read (e : Event) : bool :=
  match e with
  | CallGetName | CallGetPhone | CallGetEmail => true
  | _ => false
  end.

(** The seven tool calls, as opposed to a data packet. *)
Definition is_tool (e : Event) : bool :=
  match e with
  | DataReceived _ => false
  | _ => true
  end.

(** Events that are not a mutation by a tool: reads and data packets. *)
Definition is_quiet (e : Event) : bool :=
  match e with
  | DataReceived _ => true
  | _ => is_read e
  end.

Definition is_set (c : StoreCall) : bool :=
  match c with
  | SetField _ _ => true
  | ReadField _ => false
  end.

(** The update tool of a field. *)
Definition update_tool {rt : PyRuntime} (f : form_field) : string -> M string :=
  match f with
  | FName => update_name
  | FPhone => update_phone
  | FEmail => update_email
  end.

Definition string_or_none (v : pyval) : Prop := v = PNone \/ exists s, v = PStr s.

(** Whatever field the packet selects, the value it carries for it is a
    string or null. *)
Definition string_valued {rt : PyRuntime} (packet : DataPacket) : Prop :=
  forall f items v,
    selects packet f items -> dict_lookup "value" items = Some v -> string_or_none v.

Definition typed_event {rt : PyRuntime} (e : Event) : Prop :=
  match e with
  | DataReceived packet => string_valued packet
  | _ => True
  end.

(** [UserData()] with every default, the job context included, and nothing
    published or logged. *)
Definition detached : World :=
  {| userdata := {| ctx := None; customer_name := PNone; customer_phone := PNone;
                    customer_email := PNone; should_submit := false |};
     published := [];
     log := [] |}.

(** [{"field": "name", "value": null}] *)
Definition null_packet : DataPacket :=
  packet_of (PDict [("field", PStr "name"); ("value", PNone)]).

(** The three updates made on a store without job context: each raises after
    storing its value. *)
Definition filled_detached : World :=
  @run sample_runtime
    [CallUpdateName "Ada"; CallUpdatePhone "555-1234"; CallUpdateEmail "ada@example.com"]
    detached.

(** ** Proof automation *)

Ltac unfold_py :=
  unfold update_name, update_phone, update_email, get_name, get_phone, get_email,
    submit_form, send_to_frontend, ctx_room, set_customer_name, set_customer_phone,
    set_customer_email, set_should_submit, put_userdata, get_userdata, publish_data,
    py_get, py_getitem, logger_info, logger_error, logger_emit,
    bind, ret, raise, lift, try_except in *;
  cbn [userdata published log ctx customer_name customer_phone customer_email
       should_submit fst snd] in *.

Ltac break_match :=
  match goal with
  | |- context [match ?x with _ => _ end] => destruct x eqn:?
  | |- context [if ?x then _ else _] => destruct x eqn:?
  end.

Section AgentFacts.

Context {rt : PyRuntime}.

Lemma with_field_set (f : form_field) (v : pyval) (u : UserData) :
  field_set f v u (with_field f v u).
Proof.
  destruct f; (split; [reflexivity|]);
    (split; [intros [] Hg; solve [reflexivity | contradiction] | split; reflexivity]).
Qed.

(** *** [send_to_frontend] *)

Lemma send_to_frontend_ok (w : World) (c : JobContext) :
  ctx (userdata w) = Some c ->
  exists p,
    send_to_frontend w =
      (inr tt, {| userdata := userdata w; published := published w ++ [p]; log := log w |}) /\
    snapshot_of (userdata w) p /\ reliable p = false /\ pub_room p = room c.
Proof.
  intros Hc. unfold_py. rewrite Hc. eexists. split; [reflexivity|].
  split; [|split; reflexivity].
  eexists. split; [reflexivity|]. split; [reflexivity|].
  split; [intros []; reflexivity | reflexivity].
Qed.

Lemma send_to_frontend_no_ctx (w : World) :
  ctx (userdata w) = None ->
  send_to_frontend w = (inl (no_attribute PNone "room"), w).
Proof. intros Hc. unfold_py. rewrite Hc. reflexivity. Qed.

(** *** The data listener *)

(** The try block on a packet that does not decode. *)
Lemma body_undecodable (packet : DataPacket) (e : exn) (w : World) :
  decoded packet = inl e -> handle_data_body packet w = (inl e, w).
Proof.
  unfold decoded, handle_data_body. unfold_py. intros H.
  destruct (bytes_decode_utf8 (data packet)) as [e'|text].
  - congruence.
  - rewrite H. reflexivity.
Qed.

(** The try block on a decoded value that is not a dict: [obj.get] raises. *)
Lemma body_not_object (packet : DataPacket) (obj : pyval) (w : World) :
  decoded packet = inr obj ->
  (forall items, obj <> PDict items) ->
  handle_data_body packet w =
    (inl (no_attribute obj "get"),
     stored_and_logged (userdata w)
       [{| levelname := INFO; message := "received data: " ++ py_str obj |}] w).
Proof.
  unfold decoded, handle_data_body. unfold_py. intros H Hobj.
  destruct (bytes_decode_utf8 (data packet)) as [e'|text]; [congruence|].
  rewrite H.
  destruct obj; try reflexivity. exfalso. eapply Hobj. reflexivity.
Qed.

(** The try block on an object with a recognized selector. *)
Lemma body_selected (packet : DataPacket) (f : form_field)
    (items : list (string * pyval)) (w : World) :
  selects packet f items ->
  handle_data_body packet w =
    match dict_lookup "value" items with
    | Some v =>
        (inr tt,
         stored_and_logged (with_field f v (userdata w))
           [{| levelname := INFO; message := "received data: " ++ py_str (PDict items) |};
            {| levelname := INFO;
               message := "updated " ++ selector f ++ ": " ++ py_str v |}] w)
    | None =>
        (inl (KeyError "value"),
         stored_and_logged (userdata w)
           [{| levelname := INFO;
               message := "received data: " ++ py_str (PDict items) |}] w)
    end.
Proof.
  unfold selects, decoded, handle_data_body. unfold_py. intros [H Hf].
  destruct (bytes_decode_utf8 (data packet)) as [e'|text]; [congruence|].
  rewrite H. cbn [py_str]. rewrite Hf.
  destruct f; cbn [selector py_eq_str String.eqb Ascii.eqb Bool.eqb with_field];
    destruct (dict_lookup "value" items);
    unfold stored_and_logged; cbn [userdata published log customer_name customer_phone
      customer_email]; rewrite <- ?app_assoc; reflexivity.
Qed.

(** The try block on an object whose selector is none of the three. *)
Lemma body_unselected (packet : DataPacket) (items : list (string * pyval)) (w : World) :
  decoded packet = inr (PDict items) ->
  (forall f, dict_lookup "field" items <> Some (PStr (selector f))) ->
  exists sel,
    handle_data_body packet w =
      (inr tt,
       stored_and_logged (userdata w)
         [{| levelname := INFO; message := "received data: " ++ py_str (PDict items) |};
          {| levelname := ERROR; message := "unknown field: " ++ py_str sel |}] w).
Proof.
  unfold decoded, handle_data_body. unfold_py. intros H Hf.
  destruct (bytes_decode_utf8 (data packet)) as [e'|text]; [congruence|].
  rewrite H. cbn [py_str].
  pose proof (Hf FName) as Hn. pose proof (Hf FPhone) as Hp. pose proof (Hf FEmail) as He.
  cbn [selector] in Hn, Hp, He.
  exists (match dict_lookup "field" items with Some v => v | None => PNone end).
  destruct (dict_lookup "field" items) as [v|].
  - assert (py_eq_str v "name" = false /\ py_eq_str v "phone" = false /\
            py_eq_str v "email" = false) as (E1 & E2 & E3).
    { destruct v; cbn [py_eq_str]; try (repeat split; reflexivity).
      repeat split; apply String.eqb_neq; congruence. }
    rewrite E1, E2, E3. unfold stored_and_logged. cbn [userdata published log].
    rewrite <- app_assoc. reflexivity.
  - cbn [py_eq_str]. unfold stored_and_logged. cbn [userdata published log].
    rewrite <- app_assoc. reflexivity.
Qed.

Lemma selector_known_or_not (items : list (string * pyval)) :
  (exists f, dict_lookup "field" items = Some (PStr (selector f))) \/
  (forall f, dict_lookup "field" items <> Some (PStr (selector f))).
Proof.
  destruct (dict_lookup "field" items) as [[ |b|z|x|s|xs|its]|];
    try (right; intros f; congruence).
  destruct (string_dec s "name") as [->|Hn]; [left; exists FName; reflexivity|].
  destruct (string_dec s "phone") as [->|Hp]; [left; exists FPhone; reflexivity|].
  destruct (string_dec s "email") as [->|He]; [left; exists FEmail; reflexivity|].
  right. intros []; cbn [selector]; congruence.
Qed.

(** What one call of the listener does, whatever the packet: it returns, and
    either it stored one decoded value in one customer field, or it left the
    store alone and its last log record is an error. *)
Lemma handle_data_outcome (packet : DataPacket) (w : World) :
  exists (u' : UserData) (recs : list LogRecord),
    handle_data packet w = (inr tt, stored_and_logged u' recs w) /\
    ((exists f items v,
        selects packet f items /\ dict_lookup "value" items = Some v /\
        u' = with_field f v (userdata w)) \/
     (u' = userdata w /\
      exists recs0 msg, recs = (recs0 ++ [{| levelname := ERROR; message := msg |}])%list)).
Proof.
  unfold handle_data, try_except.
  destruct (decoded packet) as [e|obj] eqn:Hd.
  - rewrite (body_undecodable _ _ _ Hd). unfold logger_error, logger_emit.
    exists (userdata w). eexists. split; [reflexivity|].
    right. split; [reflexivity|]. exists []. eexists. reflexivity.
  - assert ((exists items, obj = PDict items) \/ (forall items, obj <> PDict items))
      as [[items ->]|Hobj].
    { destruct obj; try (right; intros; congruence). left. eexists. reflexivity. }
    + destruct (selector_known_or_not items) as [[f Hf]|Hf].
      * rewrite (body_selected packet f items w (conj Hd Hf)).
        destruct (dict_lookup "value" items) as [v|] eqn:Hv.
        -- do 2 eexists. split; [reflexivity|]. left. exists f, items, v.
           repeat split; assumption.
        -- unfold logger_error, logger_emit, stored_and_logged.
           cbn [userdata published log]. rewrite <- app_assoc.
           exists (userdata w). eexists. split; [reflexivity|].
           right. split; [reflexivity|]. eexists [_]. eexists. reflexivity.
      * destruct (body_unselected packet items w Hd Hf) as [sel ->].
        do 2 eexists. split; [reflexivity|].
        right. split; [reflexivity|]. eexists [_]. eexists. reflexivity.
    + rewrite (body_not_object _ _ _ Hd Hobj).
      unfold logger_error, logger_emit, stored_and_logged.
      cbn [userdata published log]. rewrite <- app_assoc.
      exists (userdata w). eexists. split; [reflexivity|].
      right. split; [reflexivity|]. eexists [_]. eexists. reflexivity.
Qed.

(** *** The update tools *)

Lemma update_name_run (name : string) (w : World) (c : JobContext) :
  ctx (userdata w) = Some c ->
  exists p,
    update_name name w = (inr ("The name is updated to " ++ name), updated FName name p w) /\
    snapshot_of (with_field FName (PStr name) (userdata w)) p /\ reliable p = false.
Proof.
  intros Hc. unfold updated, with_field. unfold_py. rewrite Hc. eexists. split; [reflexivity|]. split; [|reflexivity].
  eexists. split; [reflexivity|]. split; [reflexivity|].
  split; [intros []; reflexivity | reflexivity].
Qed.

Lemma update_phone_run (phone : string) (w : World) (c : JobContext) :
  ctx (userdata w) = Some c ->
  exists p,
    update_phone phone w =
      (inr ("The phone number is updated to " ++ phone), updated FPhone phone p w) /\
    snapshot_of (with_field FPhone (PStr phone) (userdata w)) p /\ reliable p = false.
Proof.
  intros Hc. unfold updated, with_field. unfold_py. rewrite Hc.
  eexists. split; [reflexivity|]. split; [|reflexivity].
  eexists. split; [reflexivity|]. split; [reflexivity|].
  split; [intros []; reflexivity | reflexivity].
Qed.

Lemma update_email_run (email : string) (w : World) (c : JobContext) :
  ctx (userdata w) = Some c ->
  exists p,
    update_email email w = (inr ("The email is updated to " ++ email), updated FEmail email p w) /\
    snapshot_of (with_field FEmail (PStr email) (userdata w)) p /\ reliable p = false.
Proof.
  intros Hc. unfold updated, with_field. unfold_py. rewrite Hc.
  eexists. split; [reflexivity|]. split; [|reflexivity].
  eexists. split; [reflexivity|]. split; [reflexivity|].
  split; [intros []; reflexivity | reflexivity].
Qed.

(** An update stores its value even when the publish raises. *)
Lemma update_stores (f : form_field) (v : string) (w : World) :
  userdata (snd (match f with
                 | FName => update_name v w
                 | FPhone => update_phone v w
                 | FEmail => update_email v w
                 end)) = with_field f (PStr v) (userdata w).
Proof.
  destruct f; unfold with_field; unfold_py; destruct (ctx (userdata w)); reflexivity.
Qed.

(** *** [submit_form] *)

Lemma submit_form_incomplete (w : World) :
  all_set (userdata w) = false ->
  submit_form w =
    (inr (if is_None (customer_name (userdata w)) then "Please provide your name."
          else if is_None (customer_phone (userdata w)) then "Please provide your phone number."
          else "Please provide your email."), w).
Proof.
  unfold all_set. intros H. unfold_py.
  destruct (is_None (customer_name (userdata w))); [reflexivity|].
  destruct (is_None (customer_phone (userdata w))); [reflexivity|].
  destruct (is_None (customer_email (userdata w))); [reflexivity|discriminate].
Qed.

Lemma submit_form_complete (w : World) (c : JobContext) :
  ctx (userdata w) = Some c ->
  all_set (userdata w) = true ->
  exists p,
    submit_form w =
      (inr "The form is submitted",
       {| userdata := submitted (userdata w); published := published w ++ [p];
          log := log w |}) /\
    snapshot_of (submitted (userdata w)) p /\ reliable p = false.
Proof.
  unfold all_set, submitted. intros Hc H. unfold_py.
  destruct (is_None (customer_name (userdata w))); [discriminate|].
  destruct (is_None (customer_phone (userdata w))); [discriminate|].
  destruct (is_None (customer_email (userdata w))); [discriminate|].
  rewrite Hc. eexists. split; [reflexivity|]. split; [|reflexivity].
  eexists. split; [reflexivity|]. split; [reflexivity|].
  split; [intros []; reflexivity | reflexivity].
Qed.

(** The store after [submit_form], with or without a job context. *)
Lemma submit_form_store (w : World) :
  userdata (snd (submit_form w)) =
    if all_set (userdata w) then submitted (userdata w) else userdata w.
Proof.
  unfold all_set, submitted. unfold_py.
  destruct (is_None (customer_name (userdata w))); [reflexivity|].
  destruct (is_None (customer_phone (userdata w))); [reflexivity|].
  destruct (is_None (customer_email (userdata w))); [reflexivity|].
  destruct (ctx (userdata w)); reflexivity.
Qed.

End AgentFacts.

(** ** The tools: confirmations, validation and broadcasts *)

Section ToolClaims.

Context {rt : PyRuntime}.

Lemma is_None_true (v : pyval) : is_None v = true <-> v = PNone.
Proof. destruct v; cbn; split; congruence. Qed.

Lemma is_None_false (v : pyval) : is_None v = false <-> v <> PNone.
Proof. destruct v; cbn; split; congruence. Qed.

Lemma all_set_complete (u : UserData) : all_set u = true <-> complete u.
Proof.
  unfold all_set, complete. rewrite !andb_true_iff, !negb_true_iff, !is_None_false.
  tauto.
Qed.

Lemma all_set_incomplete (u : UserData) : all_set u = false <-> ~ complete u.
Proof.
  rewrite <- all_set_complete. destruct (all_set u); split; congruence.
Qed.

(** C8.  Whatever the string, the empty one included, [update_name],
    [update_phone] and [update_email] return their confirmation with the string
    embedded as it is, and the store afterwards holds exactly that string in
    the tool's field and is otherwise as before: no string is rejected and
    none is altered. *)
Theorem update_stores_verbatim (w : World) (c : JobContext) (v : string) :
  ctx (userdata w) = Some c ->
  (fst (update_name v w) = inr ("The name is updated to " ++ v) /\
   customer_name (userdata (snd (update_name v w))) = PStr v /\
   field_set FName (PStr v) (userdata w) (userdata (snd (update_name v w)))) /\
  (fst (update_phone v w) = inr ("The phone number is updated to " ++ v) /\
   customer_phone (userdata (snd (update_phone v w))) = PStr v /\
   field_set FPhone (PStr v) (userdata w) (userdata (snd (update_phone v w)))) /\
  (fst (update_email v w) = inr ("The email is updated to " ++ v) /\
   customer_email (userdata (snd (update_email v w))) = PStr v /\
   field_set FEmail (PStr v) (userdata w) (userdata (snd (update_email v w)))).
Proof.
  intros Hc.
  destruct (update_name_run v w c Hc) as (p1 & -> & _).
  destruct (update_phone_run v w c Hc) as (p2 & -> & _).
  destruct (update_email_run v w c Hc) as (p3 & -> & _).
  cbn [fst snd updated userdata].
  repeat split; try reflexivity; intros [] Hg; solve [reflexivity | contradiction].
Qed.

(** C5.  In a session, each call of [update_name], [update_phone] and
    [update_email], and each call of [submit_form] that returns its success
    confirmation, appends exactly one publish to the channel, and that publish
    is the snapshot of the whole store as the call leaves it: all four keys,
    not the changed one alone. *)
Theorem mutation_broadcasts_once (w : World) (c : JobContext) :
  ctx (userdata w) = Some c ->
  (forall v, exists p,
      published (snd (update_name v w)) = (published w ++ [p])%list /\
      snapshot_of (userdata (snd (update_name v w))) p) /\
  (forall v, exists p,
      published (snd (update_phone v w)) = (published w ++ [p])%list /\
      snapshot_of (userdata (snd (update_phone v w))) p) /\
  (forall v, exists p,
      published (snd (update_email v w)) = (published w ++ [p])%list /\
      snapshot_of (userdata (snd (update_email v w))) p) /\
  (fst (submit_form w) = inr "The form is submitted" ->
   exists p,
      published (snd (submit_form w)) = (published w ++ [p])%list /\
      snapshot_of (userdata (snd (submit_form w))) p).
Proof.
  intros Hc. repeat split.
  - intros v. destruct (update_name_run v w c Hc) as (p & -> & Hs & _).
    exists p. split; [reflexivity | exact Hs].
  - intros v. destruct (update_phone_run v w c Hc) as (p & -> & Hs & _).
    exists p. split; [reflexivity | exact Hs].
  - intros v. destruct (update_email_run v w c Hc) as (p & -> & Hs & _).
    exists p. split; [reflexivity | exact Hs].
  - destruct (all_set (userdata w)) eqn:Hall.
    + destruct (submit_form_complete w c Hc Hall) as (p & -> & Hs & _).
      intros _. exists p. split; [reflexivity | exact Hs].
    + rewrite (submit_form_incomplete w Hall). cbn [fst].
      repeat break_match; discriminate.
Qed.

(** C2.  In a session, [submit_form] returns its success confirmation exactly
    when name, phone and email are all set, and then it sets [should_submit]
    and publishes once.  Otherwise it returns the prompt for one missing
    field, the name before the phone before the email, and the world is left
    as it was: nothing marked, nothing published. *)
Theorem submit_form_validates (w : World) (c : JobContext) :
  ctx (userdata w) = Some c ->
  (fst (submit_form w) = inr "The form is submitted" <-> complete (userdata w)) /\
  (complete (userdata w) ->
   should_submit (userdata (snd (submit_form w))) = true /\
   (forall f, field_value f (userdata (snd (submit_form w))) = field_value f (userdata w)) /\
   exists p, published (snd (submit_form w)) = (published w ++ [p])%list /\
             snapshot_of (userdata (snd (submit_form w))) p) /\
  (~ complete (userdata w) -> snd (submit_form w) = w) /\
  (customer_name (userdata w) = PNone ->
   fst (submit_form w) = inr "Please provide your name.") /\
  (customer_name (userdata w) <> PNone -> customer_phone (userdata w) = PNone ->
   fst (submit_form w) = inr "Please provide your phone number.") /\
  (customer_name (userdata w) <> PNone -> customer_phone (userdata w) <> PNone ->
   customer_email (userdata w) = PNone ->
   fst (submit_form w) = inr "Please provide your email.").
Proof.
  intros Hc.
  destruct (all_set (userdata w)) eqn:Hall.
  - pose proof (proj1 (all_set_complete _) Hall) as Hco.
    destruct (submit_form_complete w c Hc Hall) as (p & -> & Hs & _).
    cbn [fst snd userdata published].
    split; [tauto|]. split.
    { intros _. split; [reflexivity|]. split; [intros []; reflexivity|].
      exists p. split; [reflexivity | exact Hs]. }
    split; [intros Hno; contradiction|].
    destruct Hco as (Hn & Hp & He).
    repeat split; intros; congruence.
  - pose proof (proj1 (all_set_incomplete _) Hall) as Hco.
    rewrite (submit_form_incomplete w Hall). cbn [fst snd].
    split.
    { split; [|intros; contradiction].
      repeat break_match; discriminate. }
    split; [intros; contradiction|]. split; [reflexivity|].
    split; [|split].
    + intros Hn. apply is_None_true in Hn. rewrite Hn. reflexivity.
    + intros Hn Hp. apply is_None_false in Hn. apply is_None_true in Hp.
      rewrite Hn, Hp. reflexivity.
    + intros Hn Hp He. apply is_None_false in Hn. apply is_None_false in Hp.
      rewrite Hn, Hp. reflexivity.
Qed.

End ToolClaims.

(** ** The data listener *)

Section ListenerClaims.

Context {rt : PyRuntime}.

(** An exception leaves the try block before any assignment to the store. *)
Lemma body_raise_atomic (packet : DataPacket) (w w1 : World) (e : exn) :
  handle_data_body packet w = (inl e, w1) ->
  userdata w1 = userdata w /\ published w1 = published w.
Proof.
  destruct (decoded packet) as [e0|obj] eqn:Hd.
  - rewrite (body_undecodable _ _ _ Hd). intros [= _ <-]. split; reflexivity.
  - assert ((exists items, obj = PDict items) \/ (forall items, obj <> PDict items))
      as [[items ->]|Hobj].
    { destruct obj; try (right; intros; congruence). left. eexists. reflexivity. }
    + destruct (selector_known_or_not items) as [[f Hf]|Hf].
      * rewrite (body_selected packet f items w (conj Hd Hf)).
        destruct (dict_lookup "value" items); intros [= _ <-]; split; reflexivity.
      * destruct (body_unselected packet items w Hd Hf) as [sel ->]. discriminate.
    + rewrite (body_not_object _ _ _ Hd Hobj). intros [= _ <-]. split; reflexivity.
Qed.

Lemma handle_data_selected (packet : DataPacket) (f : form_field)
    (items : list (string * pyval)) (v : pyval) (w : World) :
  selects packet f items ->
  dict_lookup "value" items = Some v ->
  handle_data packet w =
    (inr tt,
     stored_and_logged (with_field f v (userdata w))
       [{| levelname := INFO; message := "received data: " ++ py_str (PDict items) |};
        {| levelname := INFO; message := "updated " ++ selector f ++ ": " ++ py_str v |}] w).
Proof.
  intros Hsel Hv. unfold handle_data, try_except.
  rewrite (body_selected packet f items w Hsel), Hv. reflexivity.
Qed.

(** C1, amended.  When a packet decodes to a JSON object whose ["field"] is
    ["name"], ["phone"] or ["email"] and whose ["value"] is a string, the
    listener returns normally, stores that string in the corresponding field
    and leaves the rest of the store as it was; it publishes nothing itself.
    A broadcast made from the resulting store carries the new value under the
    field's key. *)
Theorem listener_stores_value (packet : DataPacket) (f : form_field)
    (items : list (string * pyval)) (v : string) (w : World) :
  selects packet f items ->
  dict_lookup "value" items = Some (PStr v) ->
  fst (handle_data packet w) = inr tt /\
  field_set f (PStr v) (userdata w) (userdata (snd (handle_data packet w))) /\
  published (snd (handle_data packet w)) = published w /\
  (forall c, ctx (userdata w) = Some c ->
     exists p entries,
       published (snd (send_to_frontend (snd (handle_data packet w)))) =
         (published w ++ [p])%list /\
       snapshot_of (userdata (snd (handle_data packet w))) p /\
       payload p = str_encode_utf8 (json_dumps (PDict entries)) /\
       dict_lookup (snapshot_key f) entries = Some (PStr v)).
Proof.
  intros Hsel Hv. rewrite (handle_data_selected packet f items (PStr v) w Hsel Hv).
  cbn [fst snd stored_and_logged userdata published].
  split; [reflexivity|]. split; [apply with_field_set|]. split; [reflexivity|].
  intros c Hc.
  set (w' := stored_and_logged (with_field f (PStr v) (userdata w)) _ w).
  assert (ctx (userdata w') = Some c) as Hc'.
  { subst w'. cbn [stored_and_logged userdata]. destruct f; exact Hc. }
  destruct (send_to_frontend_ok w' c Hc') as (p & -> & Hs & _).
  destruct (Hs) as (entries & Hpay & _ & Hfields & _).
  exists p, entries. cbn [snd published]. split; [reflexivity|].
  split; [exact Hs|]. split; [exact Hpay|].
  rewrite (Hfields f). subst w'. cbn [stored_and_logged userdata].
  destruct f; reflexivity.
Qed.

(** C7.  When a packet does not decode to a JSON object, or decodes to an
    object whose ["field"] is none of ["name"], ["phone"], ["email"], the
    listener returns normally (no exception leaves it), the store and the
    channel are as before, and the log has grown, its last record an error. *)
Theorem listener_discards (packet : DataPacket) (w : World) :
  (forall items, decoded packet <> inr (PDict items)) \/
  (exists items, decoded packet = inr (PDict items) /\
                 forall f, dict_lookup "field" items <> Some (PStr (selector f))) ->
  fst (handle_data packet w) = inr tt /\
  userdata (snd (handle_data packet w)) = userdata w /\
  published (snd (handle_data packet w)) = published w /\
  exists recs msg,
    log (snd (handle_data packet w)) =
      (log w ++ recs ++ [{| levelname := ERROR; message := msg |}])%list.
Proof.
  intros Hrej.
  destruct (handle_data_outcome packet w) as (u' & recs & -> & Hout).
  cbn [fst snd stored_and_logged userdata published log].
  destruct Hout as [(f & items & v & [Hd Hf] & _ & _) | [-> (recs0 & msg & ->)]].
  - exfalso. destruct Hrej as [Hno | (items' & Hd' & Hf')].
    + exact (Hno items Hd).
    + rewrite Hd in Hd'. injection Hd' as <-. exact (Hf' f Hf).
  - repeat split. exists recs0, msg. reflexivity.
Qed.

(** C10.  When a packet decodes to a JSON object with a recognized selector
    and no ["value"] key, the listener returns normally with the store and the
    channel as before; it has logged the received object and then the failure
    (the [KeyError]).  In general an exception leaves the try block only
    before any assignment: whenever the block raises, the store is as it was. *)
Theorem listener_missing_value_atomic (packet : DataPacket) (f : form_field)
    (items : list (string * pyval)) (w : World) :
  selects packet f items ->
  dict_lookup "value" items = None ->
  handle_data packet w =
    (inr tt,
     stored_and_logged (userdata w)
       [{| levelname := INFO; message := "received data: " ++ py_str (PDict items) |};
        {| levelname := ERROR;
           message := "failed to parse data packet: " ++ exn_str (KeyError "value") |}] w) /\
  (forall packet' w0 e w1,
     handle_data_body packet' w0 = (inl e, w1) ->
     userdata w1 = userdata w0 /\ published w1 = published w0).
Proof.
  intros Hsel Hv. split.
  - unfold handle_data, try_except.
    rewrite (body_selected packet f items w Hsel), Hv.
    unfold logger_error, logger_emit, stored_and_logged.
    cbn [userdata published log]. rewrite <- app_assoc. reflexivity.
  - intros packet' w0 e w1. apply body_raise_atomic.
Qed.

End ListenerClaims.

(** ** Sessions *)

Section SessionClaims.

Context {rt : PyRuntime}.

Lemma snd_bind_ret {A B : Type} (m : M A) (g : A -> B) (w : World) :
  snd (bind m (fun r => ret (g r)) w) = snd (m w).
Proof. unfold bind, ret. destruct (m w) as [[e|a] w']; reflexivity. Qed.

Lemma run_cons (e : Event) (es : list Event) (w : World) :
  run (e :: es) w = run es (exec e w).
Proof. reflexivity. Qed.

Lemma run_app (es1 es2 : list Event) (w : World) :
  run (es1 ++ es2) w = run es2 (run es1 w).
Proof. unfold run. apply fold_left_app. Qed.

(** The listener changes the store in one customer field at most. *)
Lemma handle_data_store (packet : DataPacket) (w : World) :
  userdata (snd (handle_data packet w)) = userdata w \/
  exists f v, userdata (snd (handle_data packet w)) = with_field f v (userdata w).
Proof.
  destruct (handle_data_outcome packet w) as (u' & recs & -> & Hout).
  cbn [snd stored_and_logged userdata].
  destruct Hout as [(f & items & v & _ & _ & ->) | [-> _]].
  - right. exists f, v. reflexivity.
  - left. reflexivity.
Qed.

Lemma handle_data_published (packet : DataPacket) (w : World) :
  published (snd (handle_data packet w)) = published w.
Proof.
  destruct (handle_data_outcome packet w) as (u' & recs & -> & _). reflexivity.
Qed.

(** The store after each event. *)
Lemma exec_store (e : Event) (w : World) :
  userdata (exec e w) =
    match e with
    | CallUpdateName v => with_field FName (PStr v) (userdata w)
    | CallUpdatePhone v => with_field FPhone (PStr v) (userdata w)
    | CallUpdateEmail v => with_field FEmail (PStr v) (userdata w)
    | CallGetName | CallGetPhone | CallGetEmail => userdata w
    | CallSubmitForm => if all_set (userdata w) then submitted (userdata w) else userdata w
    | DataReceived packet => userdata (snd (handle_data packet w))
    end.
Proof.
  unfold exec. destruct e; cbn [dispatch]; rewrite snd_bind_ret.
  - exact (update_stores FName name w).
  - exact (update_stores FPhone phone w).
  - exact (update_stores FEmail email w).
  - reflexivity.
  - reflexivity.
  - reflexivity.
  - apply submit_form_store.
  - reflexivity.
Qed.

(** [should_submit] after an event: it is set by a [submit_form] that finds
    the three fields set, and by nothing else is it written. *)
Lemma exec_should_submit (e : Event) (w : World) :
  should_submit (userdata (exec e w)) =
    match e with
    | CallSubmitForm => should_submit (userdata w) || all_set (userdata w)
    | _ => should_submit (userdata w)
    end.
Proof.
  rewrite exec_store. destruct e; try reflexivity.
  - destruct (all_set (userdata w)); cbn [submitted should_submit].
    + rewrite orb_true_r. reflexivity.
    + rewrite orb_false_r. reflexivity.
  - destruct (handle_data_store packet w) as [-> | (f & v & ->)]; [reflexivity|].
    destruct f; reflexivity.
Qed.

Lemma exec_ctx (e : Event) (w : World) : ctx (userdata (exec e w)) = ctx (userdata w).
Proof.
  rewrite exec_store. destruct e; try reflexivity.
  - destruct (all_set (userdata w)); reflexivity.
  - destruct (handle_data_store packet w) as [-> | (f & v & ->)]; [reflexivity|].
    destruct f; reflexivity.
Qed.

(** No event writes [ctx]: every world of a session started by [entrypoint]
    has its job context. *)
Lemma run_ctx (es : list Event) (w : World) : ctx (userdata (run es w)) = ctx (userdata w).
Proof.
  revert w. induction es as [|e es IH]; intros w; [reflexivity|].
  rewrite run_cons, IH. apply exec_ctx.
Qed.

Lemma session_has_ctx (es : list Event) (c : JobContext) :
  ctx (userdata (run es (entrypoint c))) = Some c.
Proof. rewrite run_ctx. reflexivity. Qed.

Lemma submit_flips (e : Event) (w : World) :
  should_submit (userdata w) = false ->
  should_submit (userdata (exec e w)) = true ->
  e = CallSubmitForm /\ complete (userdata w).
Proof.
  rewrite exec_should_submit. intros Hw.
  destruct e; rewrite ?Hw; try discriminate.
  cbn [orb]. intros Hall. split; [reflexivity | apply all_set_complete, Hall].
Qed.

Lemma exec_keeps_submitted (e : Event) (w : World) :
  should_submit (userdata w) = true -> should_submit (userdata (exec e w)) = true.
Proof.
  rewrite exec_should_submit. intros ->. destruct e; reflexivity.
Qed.

Lemma run_keeps_submitted (es : list Event) (w : World) :
  should_submit (userdata w) = true -> should_submit (userdata (run es w)) = true.
Proof.
  revert w. induction es as [|e es IH]; intros w Hw; [exact Hw|].
  rewrite run_cons. apply IH, exec_keeps_submitted, Hw.
Qed.

(** A run that ends submitted from a world that was not contains the
    [submit_form] call that did it, made when the three fields were set. *)
Lemma run_submitted_by (es : list Event) (w : World) :
  should_submit (userdata w) = false ->
  should_submit (userdata (run es w)) = true ->
  exists es1 es2,
    es = (es1 ++ CallSubmitForm :: es2)%list /\
    should_submit (userdata (run es1 w)) = false /\
    complete (userdata (run es1 w)).
Proof.
  revert w. induction es as [|e es IH]; intros w Hw Hrun.
  - cbn in Hrun. congruence.
  - rewrite run_cons in Hrun.
    destruct (should_submit (userdata (exec e w))) eqn:He.
    + destruct (submit_flips e w Hw He) as [-> Hco].
      exists [], es. split; [reflexivity|]. split; assumption.
    + destruct (IH (exec e w) He Hrun) as (es1 & es2 & -> & Hs & Hco).
      exists (e :: es1), es2. split; [reflexivity|]. split; assumption.
Qed.

(** C3.  [should_submit] is false in the store that [entrypoint] creates.  An
    event turns it from false to true only if it is a [submit_form] call made
    when name, phone and email are all set, so a session in which it is true
    contains such a call.  Once true it stays true under every sequence of
    tool calls and data packets. *)
Theorem should_submit_latches (c : JobContext) :
  should_submit (userdata (entrypoint c)) = false /\
  (forall e w,
     should_submit (userdata w) = false ->
     should_submit (userdata (exec e w)) = true ->
     e = CallSubmitForm /\ complete (userdata w)) /\
  (forall es,
     should_submit (userdata (run es (entrypoint c))) = true ->
     exists es1 es2,
       es = (es1 ++ CallSubmitForm :: es2)%list /\
       should_submit (userdata (run es1 (entrypoint c))) = false /\
       complete (userdata (run es1 (entrypoint c)))) /\
  (forall es w,
     should_submit (userdata w) = true ->
     should_submit (userdata (run es w)) = true).
Proof.
  split; [reflexivity|]. split; [exact submit_flips|]. split.
  - intros es. apply run_submitted_by. reflexivity.
  - exact run_keeps_submitted.
Qed.

(** C9.  Whatever the packet, the listener leaves the store as it was or
    replaces one of [customer_name], [customer_phone], [customer_email]; it
    never writes [should_submit] or [ctx].  An event that turns
    [should_submit] from false to true is therefore a [submit_form] call. *)
Theorem listener_touches_fields_only (packet : DataPacket) (w : World) :
  (userdata (snd (handle_data packet w)) = userdata w \/
   exists f v, userdata (snd (handle_data packet w)) = with_field f v (userdata w)) /\
  should_submit (userdata (snd (handle_data packet w))) = should_submit (userdata w) /\
  ctx (userdata (snd (handle_data packet w))) = ctx (userdata w) /\
  (forall e w0,
     should_submit (userdata w0) = false ->
     should_submit (userdata (exec e w0)) = true ->
     e = CallSubmitForm).
Proof.
  split; [apply handle_data_store|]. split; [|split].
  - destruct (handle_data_store packet w) as [-> | (f & v & ->)]; [reflexivity|].
    destruct f; reflexivity.
  - destruct (handle_data_store packet w) as [-> | (f & v & ->)]; [reflexivity|].
    destruct f; reflexivity.
  - intros e w0 H0 H1. exact (proj1 (submit_flips e w0 H0 H1)).
Qed.

End SessionClaims.

(** ** Last write wins *)

Example last_written_example :
  last_written FName
    [SetField FName "Ada"; ReadField FName; SetField FName "Grace"; SetField FPhone "555"]
  = Some "Grace" /\
  last_written FEmail
    [SetField FName "Ada"; ReadField FName; SetField FName "Grace"; SetField FPhone "555"]
  = None.
Proof. split; reflexivity. Qed.

Section StoreCallClaims.

Context {rt : PyRuntime}.

Lemma field_value_with_field (f g : form_field) (v : pyval) (u : UserData) :
  field_value f (with_field g v u) = if form_field_eqb g f then v else field_value f u.
Proof. destruct f, g; reflexivity. Qed.

Lemma exec_call_field (c : StoreCall) (f : form_field) (w : World) :
  field_value f (userdata (exec (event_of_call c) w)) =
    match c with
    | SetField g v => if form_field_eqb g f then PStr v else field_value f (userdata w)
    | ReadField _ => field_value f (userdata w)
    end.
Proof.
  rewrite exec_store.
  destruct c as [[] v|[]]; cbn [event_of_call]; try reflexivity;
    apply field_value_with_field.
Qed.

Lemma run_calls_field (calls : list StoreCall) (f : form_field) (w : World) :
  field_value f (userdata (run (map event_of_call calls) w)) =
    match last_written f calls with
    | Some v => PStr v
    | None => field_value f (userdata w)
    end.
Proof.
  revert w. induction calls as [|c calls IH]; intros w; [reflexivity|].
  cbn [map last_written]. rewrite run_cons, IH.
  destruct (last_written f calls) as [v|]; [reflexivity|].
  rewrite exec_call_field.
  destruct c as [g v|g]; [destruct (form_field_eqb g f)|]; reflexivity.
Qed.

(** C4.  After any finite sequence of [update_name], [update_phone],
    [update_email] calls, interleaved in any way with [get_name], [get_phone],
    [get_email] calls, each customer field holds exactly the value passed to
    the last update of that field, and a field that no call updated is as it
    was before the sequence: [None] when the sequence starts from the store
    that [entrypoint] creates. *)
Theorem last_write_wins (calls : list StoreCall) (f : form_field) (w : World)
    (c : JobContext) :
  field_value f (userdata (run (map event_of_call calls) w)) =
    match last_written f calls with
    | Some v => PStr v
    | None => field_value f (userdata w)
    end /\
  field_value f (userdata (run (map event_of_call calls) (entrypoint c))) =
    match last_written f calls with
    | Some v => PStr v
    | None => PNone
    end.
Proof.
  split; [apply run_calls_field|].
  rewrite run_calls_field. destruct (last_written f calls); [reflexivity|].
  destruct f; reflexivity.
Qed.

End StoreCallClaims.

(** ** Every publish is a snapshot *)

Section BroadcastFacts.

Context {rt : PyRuntime}.

(** An event publishes at most once, unreliably, and what it publishes is the
    snapshot of the store as the event leaves it. *)
Lemma exec_published (e : Event) (w : World) :
  exists ps,
    published (exec e w) = (published w ++ ps)%list /\
    length ps <= 1 /\
    Forall (fun p => snapshot_of (userdata (exec e w)) p /\ reliable p = false) ps.
Proof.
  assert (forall w', published w' = published w ->
            exists ps, published w' = (published w ++ ps)%list /\ length ps <= 1 /\
              Forall (fun p => snapshot_of (userdata w') p /\ reliable p = false) ps)
    as Hnone.
  { intros w' ->. exists []. rewrite app_nil_r. repeat split; [cbn; lia | constructor]. }
  assert (forall w' p, published w' = (published w ++ [p])%list ->
            snapshot_of (userdata w') p -> reliable p = false ->
            exists ps, published w' = (published w ++ ps)%list /\ length ps <= 1 /\
              Forall (fun p => snapshot_of (userdata w') p /\ reliable p = false) ps)
    as Hone.
  { intros w' p -> Hs Hr. exists [p]. repeat split; [cbn; lia|].
    constructor; [split; assumption | constructor]. }
  unfold exec. destruct e; cbn [dispatch]; rewrite snd_bind_ret;
    try (apply Hnone; reflexivity).
  - destruct (ctx (userdata w)) as [c|] eqn:Hc.
    + destruct (update_name_run name w c Hc) as (p & -> & Hs & Hr).
      apply (Hone _ p); [reflexivity | exact Hs | exact Hr].
    + apply Hnone. unfold_py. rewrite Hc. reflexivity.
  - destruct (ctx (userdata w)) as [c|] eqn:Hc.
    + destruct (update_phone_run phone w c Hc) as (p & -> & Hs & Hr).
      apply (Hone _ p); [reflexivity | exact Hs | exact Hr].
    + apply Hnone. unfold_py. rewrite Hc. reflexivity.
  - destruct (ctx (userdata w)) as [c|] eqn:Hc.
    + destruct (update_email_run email w c Hc) as (p & -> & Hs & Hr).
      apply (Hone _ p); [reflexivity | exact Hs | exact Hr].
    + apply Hnone. unfold_py. rewrite Hc. reflexivity.
  - destruct (all_set (userdata w)) eqn:Hall.
    + destruct (ctx (userdata w)) as [c|] eqn:Hc.
      * destruct (submit_form_complete w c Hc Hall) as (p & -> & Hs & Hr).
        apply (Hone _ p); [reflexivity | exact Hs | exact Hr].
      * apply Hnone. unfold_py.
        destruct (is_None (customer_name (userdata w))); [reflexivity|].
        destruct (is_None (customer_phone (userdata w))); [reflexivity|].
        destruct (is_None (customer_email (userdata w))); [reflexivity|].
        rewrite Hc. reflexivity.
    + rewrite (submit_form_incomplete w Hall). apply Hnone. reflexivity.
  - apply Hnone. apply handle_data_published.
Qed.

(** Every publish of a session is the unreliable snapshot of the store as it
    was after some prefix of the session. *)
Lemma session_publishes_snapshots (es : list Event) (w : World) (p : DataPublish) :
  In p (published (run es w)) ->
  In p (published w) \/
  (reliable p = false /\
   exists es1 es2, es = (es1 ++ es2)%list /\ snapshot_of (userdata (run es1 w)) p).
Proof.
  revert w. induction es as [|e es IH]; intros w Hin; [left; exact Hin|].
  rewrite run_cons in Hin. destruct (IH _ Hin) as [Hold | (Hr & es1 & es2 & -> & Hs)].
  - destruct (exec_published e w) as (ps & Hps & _ & Hall).
    rewrite Hps in Hold. apply in_app_or in Hold as [Hold|Hnew]; [left; exact Hold|].
    right. rewrite Forall_forall in Hall. destruct (Hall p Hnew) as [Hs Hr].
    split; [exact Hr|]. exists [e], es. split; [reflexivity | exact Hs].
  - right. split; [exact Hr|]. exists (e :: es1), es2. split; [reflexivity | exact Hs].
Qed.

End BroadcastFacts.

(** ** Reads, re-submission and sessions without a job context *)

Section ToolFacts.

Context {rt : PyRuntime}.

Lemma snapshot_publish_snapshot (c : JobContext) (u : UserData) :
  snapshot_of u (snapshot_publish c u).
Proof.
  eexists. split; [reflexivity|]. split; [reflexivity|].
  split; [intros []; reflexivity | reflexivity].
Qed.

Lemma update_tool_eq (f : form_field) (v : string) (w : World) (c : JobContext) :
  ctx (userdata w) = Some c ->
  snd (update_tool f v w) =
    {| userdata := with_field f (PStr v) (userdata w);
       published :=
         published w ++ [snapshot_publish c (with_field f (PStr v) (userdata w))];
       log := log w |}.
Proof.
  intros Hc. destruct f; unfold update_tool, snapshot_publish, with_field; unfold_py;
    rewrite Hc; reflexivity.
Qed.

Lemma update_tool_detached (f : form_field) (v : string) (w : World) :
  ctx (userdata w) = None ->
  update_tool f v w =
    (inl (AttributeError "'NoneType' object has no attribute 'room'"),
     {| userdata := with_field f (PStr v) (userdata w);
        published := published w;
        log := log w |}).
Proof.
  intros Hc. destruct f; unfold update_tool, with_field; unfold_py;
    rewrite Hc; reflexivity.
Qed.

Lemma submit_form_eq (w : World) (c : JobContext) :
  ctx (userdata w) = Some c ->
  all_set (userdata w) = true ->
  submit_form w =
    (inr "The form is submitted",
     {| userdata := submitted (userdata w);
        published := published w ++ [snapshot_publish c (submitted (userdata w))];
        log := log w |}).
Proof.
  unfold all_set, submitted, snapshot_publish. intros Hc H. unfold_py.
  destruct (is_None (customer_name (userdata w))); [discriminate|].
  destruct (is_None (customer_phone (userdata w))); [discriminate|].
  destruct (is_None (customer_email (userdata w))); [discriminate|].
  rewrite Hc. reflexivity.
Qed.

Lemma exec_read (e : Event) (w : World) : is_read e = true -> exec e w = w.
Proof. destruct e; try discriminate; intros _; destruct w; reflexivity. Qed.

(** X1.  A [get_*] call made right after the update of the same field returns
    the description with the value just stored, whether or not the publish of
    the update succeeded. *)
Theorem read_after_write (v : string) (w : World) :
  fst (get_name (snd (update_name v w))) = inr ("User's name is " ++ v) /\
  fst (get_phone (snd (update_phone v w))) = inr ("User's phone number is " ++ v) /\
  fst (get_email (snd (update_email v w))) = inr ("User's email is " ++ v).
Proof.
  pose proof (update_stores FName v w) as Hn.
  pose proof (update_stores FPhone v w) as Hp.
  pose proof (update_stores FEmail v w) as He.
  cbv beta iota in Hn, Hp, He.
  unfold get_name, get_phone, get_email, bind, get_userdata, ret. cbn [fst].
  rewrite Hn, Hp, He. repeat split; reflexivity.
Qed.

(** X2.  The [get_*] calls are transparent: dropping them from any sequence of
    events leaves the final world, store, channel and log, the same. *)
Theorem reads_are_transparent (es : list Event) (w : World) :
  run (filter (fun e => negb (is_read e)) es) w = run es w.
Proof.
  revert w. induction es as [|e es IH]; intros w; [reflexivity|].
  cbn [filter]. destruct (is_read e) eqn:He; cbn [negb].
  - rewrite run_cons, (exec_read e w He). apply IH.
  - rewrite !run_cons. apply IH.
Qed.

(** X3.  [submit_form] has no guard against a second submission: called again
    on a submitted, still complete store it succeeds again, leaves the store
    as it is and publishes the same snapshot a second time. *)
Theorem resubmit_rebroadcasts (w : World) (c : JobContext) :
  ctx (userdata w) = Some c ->
  complete (userdata w) ->
  fst (submit_form (snd (submit_form w))) = inr "The form is submitted" /\
  userdata (snd (submit_form (snd (submit_form w)))) = userdata (snd (submit_form w)) /\
  exists p,
    published (snd (submit_form w)) = (published w ++ [p])%list /\
    published (snd (submit_form (snd (submit_form w)))) = (published w ++ [p; p])%list.
Proof.
  intros Hc Hco. apply all_set_complete in Hco.
  rewrite (submit_form_eq w c Hc Hco). cbn [snd].
  set (w1 := {| userdata := submitted (userdata w);
                published := _; log := log w |}).
  assert (ctx (userdata w1) = Some c) as Hc1 by exact Hc.
  assert (all_set (userdata w1) = true) as Hco1 by exact Hco.
  rewrite (submit_form_eq w1 c Hc1 Hco1). cbn [fst snd userdata published].
  split; [reflexivity|]. split; [reflexivity|].
  eexists. split; [reflexivity|]. subst w1. cbn [userdata published].
  rewrite <- app_assoc. reflexivity.
Qed.

(** X5.  On a store whose [ctx] is [None], each update tool stores its value
    and then raises the [AttributeError] of [userdata.ctx.room]: the field is
    changed although the call failed, and nothing is published. *)
Theorem update_without_ctx (v : string) (w : World) :
  ctx (userdata w) = None ->
  (fst (update_name v w) = inl (AttributeError "'NoneType' object has no attribute 'room'") /\
   customer_name (userdata (snd (update_name v w))) = PStr v /\
   published (snd (update_name v w)) = published w) /\
  (fst (update_phone v w) = inl (AttributeError "'NoneType' object has no attribute 'room'") /\
   customer_phone (userdata (snd (update_phone v w))) = PStr v /\
   published (snd (update_phone v w)) = published w) /\
  (fst (update_email v w) = inl (AttributeError "'NoneType' object has no attribute 'room'") /\
   customer_email (userdata (snd (update_email v w))) = PStr v /\
   published (snd (update_email v w)) = published w).
Proof.
  intros Hc.
  pose proof (update_tool_detached FName v w Hc) as Hn.
  pose proof (update_tool_detached FPhone v w Hc) as Hp.
  pose proof (update_tool_detached FEmail v w Hc) as He.
  cbn [update_tool] in Hn, Hp, He. rewrite Hn, Hp, He.
  repeat split; reflexivity.
Qed.

(** X6.  On a complete store whose [ctx] is [None], [submit_form] sets
    [should_submit] and then raises: the form is marked submitted although
    the call failed and no snapshot was published. *)
Theorem submit_without_ctx (w : World) :
  ctx (userdata w) = None ->
  complete (userdata w) ->
  fst (submit_form w) = inl (AttributeError "'NoneType' object has no attribute 'room'") /\
  should_submit (userdata (snd (submit_form w))) = true /\
  published (snd (submit_form w)) = published w.
Proof.
  intros Hc Hco. apply all_set_complete in Hco. unfold all_set in Hco. unfold_py.
  destruct (is_None (customer_name (userdata w))); [discriminate|].
  destruct (is_None (customer_phone (userdata w))); [discriminate|].
  destruct (is_None (customer_email (userdata w))); [discriminate|].
  rewrite Hc. repeat split; reflexivity.
Qed.

(** X12.  [submit_form] tests [is None], not emptiness: after the three fields
    were updated with any strings, empty ones included, it succeeds. *)
Theorem submit_accepts_any_strings (a b d : string) (w : World) (c : JobContext) :
  ctx (userdata w) = Some c ->
  fst (submit_form (run [CallUpdateName a; CallUpdatePhone b; CallUpdateEmail d] w)) =
    inr "The form is submitted" /\
  should_submit
    (userdata (snd (submit_form
       (run [CallUpdateName a; CallUpdatePhone b; CallUpdateEmail d] w)))) = true.
Proof.
  intros Hc.
  set (w3 := run _ w).
  assert (ctx (userdata w3) = Some c) as Hc3.
  { subst w3. rewrite run_ctx. exact Hc. }
  assert (all_set (userdata w3) = true) as Hall.
  { subst w3. unfold run. cbn [fold_left]. unfold all_set.
    rewrite !exec_store. cbn [with_field customer_name customer_phone customer_email].
    reflexivity. }
  rewrite (submit_form_eq w3 c Hc3 Hall). split; reflexivity.
Qed.

End ToolFacts.

(** ** The listener beside the tools, and whole sessions *)

Section SessionFacts.

Context {rt : PyRuntime}.

Lemma exec_data (packet : DataPacket) (w : World) :
  exec (DataReceived packet) w = snd (handle_data packet w).
Proof. unfold exec. cbn [dispatch]. apply snd_bind_ret. Qed.

(** The world after the listener, by what the packet decodes to. *)
Lemma handle_data_undecodable (packet : DataPacket) (e : exn) (w : World) :
  decoded packet = inl e ->
  handle_data packet w =
    (inr tt,
     stored_and_logged (userdata w)
       [{| levelname := ERROR;
           message := "failed to parse data packet: " ++ exn_str e |}] w).
Proof.
  intros Hd. unfold handle_data, try_except. rewrite (body_undecodable _ _ _ Hd).
  reflexivity.
Qed.

Lemma handle_data_decoded (packet : DataPacket) (obj : pyval) (w : World) :
  decoded packet = inr obj ->
  exists u' r,
    handle_data packet w =
      (inr tt,
       stored_and_logged u'
         [{| levelname := INFO; message := "received data: " ++ py_str obj |}; r] w).
Proof.
  intros Hd. unfold handle_data, try_except.
  assert ((exists items, obj = PDict items) \/ (forall items, obj <> PDict items))
    as [[items ->]|Hobj].
  { destruct obj; try (right; intros; congruence). left. eexists. reflexivity. }
  - destruct (selector_known_or_not items) as [[f Hf]|Hf].
    + rewrite (body_selected packet f items w (conj Hd Hf)).
      destruct (dict_lookup "value" items) as [v|].
      * do 2 eexists. reflexivity.
      * unfold logger_error, logger_emit, stored_and_logged.
        cbn [userdata published log]. rewrite <- app_assoc.
        exists (userdata w). eexists. reflexivity.
    + destruct (body_unselected packet items w Hd Hf) as [sel ->].
      do 2 eexists. reflexivity.
  - rewrite (body_not_object _ _ _ Hd Hobj).
    unfold logger_error, logger_emit, stored_and_logged.
    cbn [userdata published log]. rewrite <- app_assoc.
    exists (userdata w). eexists. reflexivity.
Qed.

Lemma exec_tool_log (e : Event) (w : World) : is_tool e = true -> log (exec e w) = log w.
Proof.
  destruct e; try discriminate; intros _; unfold exec; cbn [dispatch];
    rewrite snd_bind_ret; unfold_py;
    repeat match goal with
           | |- context [is_None ?x] => destruct (is_None x)
           | |- context [ctx ?u] => destruct (ctx u)
           end; reflexivity.
Qed.

(** X9.  Only the listener writes the log.  A tool call leaves the log as it
    is.  The listener appends one error record for a packet that does not
    decode, and two records, the first the [received data] line, for a packet
    that decodes. *)
Theorem only_listener_logs :
  (forall e w, is_tool e = true -> log (exec e w) = log w) /\
  (forall packet w e,
     decoded packet = inl e ->
     log (snd (handle_data packet w)) =
       (log w ++ [{| levelname := ERROR;
                     message := "failed to parse data packet: " ++ exn_str e |}])%list) /\
  (forall packet w obj,
     decoded packet = inr obj ->
     exists r,
       log (snd (handle_data packet w)) =
         (log w ++ [{| levelname := INFO; message := "received data: " ++ py_str obj |};
                    r])%list).
Proof.
  split; [exact exec_tool_log|]. split.
  - intros packet w e Hd. rewrite (handle_data_undecodable packet e w Hd). reflexivity.
  - intros packet w obj Hd.
    destruct (handle_data_decoded packet obj w Hd) as (u' & r & ->).
    exists r. reflexivity.
Qed.

(** X4.  A packet whose value is [null] for a recognized selector puts [None]
    back in that field and leaves [should_submit] alone, so a store that was
    submitted can become incomplete: the next [submit_form] does not succeed
    and changes nothing. *)
Theorem listener_null_unsets (packet : DataPacket) (f : form_field)
    (items : list (string * pyval)) (w : World) :
  selects packet f items ->
  dict_lookup "value" items = Some PNone ->
  field_value f (userdata (snd (handle_data packet w))) = PNone /\
  should_submit (userdata (snd (handle_data packet w))) = should_submit (userdata w) /\
  fst (submit_form (snd (handle_data packet w))) <> inr "The form is submitted" /\
  snd (submit_form (snd (handle_data packet w))) = snd (handle_data packet w).
Proof.
  intros Hsel Hv. rewrite (handle_data_selected packet f items PNone w Hsel Hv).
  cbn [snd]. set (w' := stored_and_logged _ _ w).
  assert (field_value f (userdata w') = PNone) as Hf by (destruct f; reflexivity).
  assert (all_set (userdata w') = false) as Hall.
  { apply all_set_incomplete. intros (Hn & Hp & He). destruct f; contradiction. }
  split; [exact Hf|]. split; [destruct f; reflexivity|].
  rewrite (submit_form_incomplete w' Hall). cbn [fst snd].
  split; [|reflexivity]. repeat break_match; discriminate.
Qed.

(** X10.  The two paths converge on the same store: a packet that selects a
    field with a string value leaves exactly the store that the update tool of
    that field leaves when called with the same string. *)
Theorem listener_agrees_with_tool (packet : DataPacket) (f : form_field)
    (items : list (string * pyval)) (v : string) (w : World) :
  selects packet f items ->
  dict_lookup "value" items = Some (PStr v) ->
  userdata (snd (handle_data packet w)) = userdata (snd (update_tool f v w)).
Proof.
  intros Hsel Hv. rewrite (handle_data_selected packet f items (PStr v) w Hsel Hv).
  pose proof (update_stores f v w) as Hu.
  destruct f; cbn [update_tool]; cbv beta iota in Hu; rewrite Hu; reflexivity.
Qed.

(** *** What a session publishes *)

Lemma exec_quiet_published (e : Event) (w : World) :
  is_quiet e = true -> published (exec e w) = published w.
Proof.
  destruct e; try discriminate; intros _;
    try (rewrite exec_read by reflexivity; reflexivity).
  rewrite exec_data. apply handle_data_published.
Qed.

Lemma exec_published_eq (e : Event) (w : World) (c : JobContext) :
  ctx (userdata w) = Some c ->
  published (exec e w) =
    (published w ++
     if publishes e (userdata w) then [snapshot_publish c (userdata (exec e w))] else [])%list.
Proof.
  intros Hc.
  destruct e; cbn [publishes];
    try (rewrite exec_quiet_published by reflexivity; rewrite app_nil_r; reflexivity).
  - unfold exec. cbn [dispatch]. rewrite snd_bind_ret.
    change (update_name name w) with (update_tool FName name w).
    rewrite (update_tool_eq FName name w c Hc). reflexivity.
  - unfold exec. cbn [dispatch]. rewrite snd_bind_ret.
    change (update_phone phone w) with (update_tool FPhone phone w).
    rewrite (update_tool_eq FPhone phone w c Hc). reflexivity.
  - unfold exec. cbn [dispatch]. rewrite snd_bind_ret.
    change (update_email email w) with (update_tool FEmail email w).
    rewrite (update_tool_eq FEmail email w c Hc). reflexivity.
  - unfold exec. cbn [dispatch]. rewrite snd_bind_ret.
    destruct (all_set (userdata w)) eqn:Hall.
    + rewrite (submit_form_eq w c Hc Hall). reflexivity.
    + rewrite (submit_form_incomplete w Hall). cbn [snd]. rewrite app_nil_r. reflexivity.
Qed.

(** Each publish of a run was made by a tool mutation and is the snapshot of
    the store right after it. *)
Lemma run_published_origin (es : list Event) (w : World) (c : JobContext)
    (p : DataPublish) :
  ctx (userdata w) = Some c ->
  In p (published (run es w)) ->
  In p (published w) \/
  exists es1 e es2,
    es = (es1 ++ e :: es2)%list /\ is_quiet e = false /\
    p = snapshot_publish c (userdata (run (es1 ++ [e]) w)).
Proof.
  revert w. induction es as [|e es IH]; intros w Hc Hin; [left; exact Hin|].
  rewrite run_cons in Hin.
  assert (ctx (userdata (exec e w)) = Some c) as Hc' by (rewrite exec_ctx; exact Hc).
  destruct (IH _ Hc' Hin) as [Hold | (es1 & e' & es2 & -> & Hq & ->)].
  - rewrite (exec_published_eq e w c Hc) in Hold.
    apply in_app_or in Hold as [Hold|Hnew]; [left; exact Hold|].
    right. exists [], e, es.
    destruct (publishes e (userdata w)) eqn:Hpub; [|destruct Hnew].
    destruct Hnew as [<-|[]].
    split; [reflexivity|]. split; [|reflexivity].
    destruct e; try reflexivity; discriminate Hpub.
  - right. exists (e :: es1), e', es2. split; [reflexivity|]. split; [exact Hq|].
    reflexivity.
Qed.

(** X7.  Every publish found on the channel of a session was made by a tool
    mutation: it went unreliably to the session's room and is the four-key
    snapshot of the store as it was right after that event. *)
Theorem session_broadcast_shape (es : list Event) (c : JobContext) (p : DataPublish) :
  In p (published (run es (entrypoint c))) ->
  reliable p = false /\
  pub_room p = room c /\
  exists es1 e es2,
    es = (es1 ++ e :: es2)%list /\ is_quiet e = false /\
    snapshot_of (userdata (run (es1 ++ [e]) (entrypoint c))) p.
Proof.
  intros Hin.
  destruct (run_published_origin es (entrypoint c) c p eq_refl Hin)
    as [[] | (es1 & e & es2 & -> & Hq & ->)].
  split; [reflexivity|]. split; [reflexivity|].
  exists es1, e, es2. split; [reflexivity|]. split; [exact Hq|].
  apply snapshot_publish_snapshot.
Qed.

(** X8.  Data packets and [get_*] calls never publish: the events of a run
    that are one or the other leave the channel as it was. *)
Theorem quiet_events_publish_nothing (es : list Event) (w : World) :
  published (run (filter is_quiet es) w) = published w.
Proof.
  revert w. induction es as [|e es IH]; intros w; [reflexivity|].
  cbn [filter]. destruct (is_quiet e) eqn:Hq; [|apply IH].
  rewrite run_cons, IH. apply exec_quiet_published, Hq.
Qed.

(** X14.  In a session, a sequence of update and get calls publishes exactly
    one snapshot per update call. *)
Theorem one_publish_per_update (calls : list StoreCall) (w : World) (c : JobContext) :
  ctx (userdata w) = Some c ->
  length (published (run (map event_of_call calls) w)) =
    length (published w) + length (filter is_set calls).
Proof.
  revert w. induction calls as [|k calls IH]; intros w Hc; [cbn; lia|].
  cbn [map]. rewrite run_cons.
  assert (ctx (userdata (exec (event_of_call k) w)) = Some c) as Hc'
    by (rewrite exec_ctx; exact Hc).
  rewrite (IH _ Hc'), (exec_published_eq _ w c Hc), length_app.
  destruct k as [[] v|[]]; cbn [event_of_call publishes is_read filter is_set length]; lia.
Qed.

(** *** Sessions that receive well-typed packets *)

Lemma exec_fields_typed (e : Event) (w : World) :
  fields_typed (userdata w) -> typed_event e -> fields_typed (userdata (exec e w)).
Proof.
  intros Hw He. rewrite exec_store. destruct e; try exact Hw.
  - intros []; cbn [field_value with_field customer_name customer_phone customer_email];
      try apply (Hw FPhone); try apply (Hw FEmail). right. eexists. reflexivity.
  - intros []; cbn [field_value with_field customer_name customer_phone customer_email];
      try apply (Hw FName); try apply (Hw FEmail). right. eexists. reflexivity.
  - intros []; cbn [field_value with_field customer_name customer_phone customer_email];
      try apply (Hw FName); try apply (Hw FPhone). right. eexists. reflexivity.
  - destruct (all_set (userdata w)); [|exact Hw]. intros []; [apply (Hw FName) | apply (Hw FPhone) | apply (Hw FEmail)].
  - cbn [typed_event] in He.
    destruct (handle_data_outcome packet w) as (u' & recs & -> & Hout).
    cbn [snd stored_and_logged userdata].
    destruct Hout as [(f & items & v & Hsel & Hv & ->) | [-> _]]; [|exact Hw].
    pose proof (He f items v Hsel Hv) as Hval.
    intros g. rewrite field_value_with_field.
    destruct (form_field_eqb f g); [exact Hval | apply Hw].
Qed.

Lemma run_fields_typed (es : list Event) (w : World) :
  fields_typed (userdata w) -> Forall typed_event es -> fields_typed (userdata (run es w)).
Proof.
  revert w. induction es as [|e es IH]; intros w Hw Hes; [exact Hw|].
  inversion Hes as [|? ? He Hes']; subst.
  rewrite run_cons. apply IH; [apply exec_fields_typed; assumption | exact Hes'].
Qed.

(** X11.  In a session whose data packets carry only string or null values,
    each customer field of the store is a string or [None] at every moment,
    and every publish is the dump of an object with exactly the four keys
    whose three customer values are strings or null and whose [should_submit]
    is a boolean. *)
Theorem typed_session_typed_broadcasts (es : list Event) (c : JobContext) :
  Forall typed_event es ->
  fields_typed (userdata (run es (entrypoint c))) /\
  forall p, In p (published (run es (entrypoint c))) ->
    exists items,
      payload p = str_encode_utf8 (json_dumps (PDict items)) /\
      map fst items = ["customer_name"; "customer_phone"; "customer_email"; "should_submit"] /\
      (forall f, exists v, dict_lookup (snapshot_key f) items = Some v /\ string_or_none v) /\
      exists b, dict_lookup "should_submit" items = Some (PBool b).
Proof.
  intros Hes.
  assert (fields_typed (userdata (entrypoint c))) as H0 by (intros []; left; reflexivity).
  split; [apply run_fields_typed; assumption|].
  intros p Hin.
  destruct (run_published_origin es (entrypoint c) c p eq_refl Hin)
    as [[] | (es1 & e & es2 & -> & _ & ->)].
  assert (Forall typed_event (es1 ++ [e])) as Hpre.
  { apply Forall_app in Hes as [H1 H2]. apply Forall_app. split; [exact H1|].
    inversion H2; subst. constructor; [assumption | constructor]. }
  pose proof (run_fields_typed (es1 ++ [e]) (entrypoint c) H0 Hpre) as Htyped.
  destruct (snapshot_publish_snapshot c (userdata (run (es1 ++ [e]) (entrypoint c))))
    as (items & Hpay & Hkeys & Hfields & Hsub).
  exists items. split; [exact Hpay|]. split; [exact Hkeys|]. split.
  - intros f. eexists. split; [apply Hfields | apply Htyped].
  - eexists. exact Hsub.
Qed.

(** X13.  In a session started by [entrypoint] nothing raises: after any
    sequence of events, every tool call returns a string and the data
    callback returns, whatever the packet. *)
Theorem session_never_raises (es : list Event) (c : JobContext) (e : Event) :
  exists r, fst (dispatch e (run es (entrypoint c))) = inr r.
Proof.
  pose proof (session_has_ctx es c) as Hc.
  set (w := run es (entrypoint c)) in *.
  destruct e; cbn [dispatch]; unfold bind at 1.
  - destruct (update_name_run name w c Hc) as (p & -> & _). eexists. reflexivity.
  - destruct (update_phone_run phone w c Hc) as (p & -> & _). eexists. reflexivity.
  - destruct (update_email_run email w c Hc) as (p & -> & _). eexists. reflexivity.
  - eexists. reflexivity.
  - eexists. reflexivity.
  - eexists. reflexivity.
  - destruct (all_set (userdata w)) eqn:Hall.
    + rewrite (submit_form_eq w c Hc Hall). eexists. reflexivity.
    + rewrite (submit_form_incomplete w Hall). eexists. reflexivity.
  - destruct (handle_data_outcome packet w) as (u' & recs & -> & _).
    eexists. reflexivity.
Qed.

End SessionFacts.

(** ** The module at work on concrete sessions *)

#[local] Existing Instance sample_runtime.

Example ada_packet_text :
  string_of_list_byte (data ada_packet) =
  "{" ++ quoted dq "field" ++ ": " ++ quoted dq "name" ++ ", "
      ++ quoted dq "value" ++ ": " ++ quoted dq "Ada" ++ "}".
Proof. reflexivity. Qed.

Example number_packet_text :
  string_of_list_byte (data number_packet) =
  "{" ++ quoted dq "field" ++ ": " ++ quoted dq "name" ++ ", "
      ++ quoted dq "value" ++ ": 42}".
Proof. reflexivity. Qed.

Example number_packet_world :
  handle_data number_packet fresh =
  (inr tt,
   {| userdata := {| ctx := Some sample_job; customer_name := PInt 42;
                     customer_phone := PNone; customer_email := PNone;
                     should_submit := false |};
      published := [];
      log := [ {| levelname := INFO;
                  message := "received data: {'field': 'name', 'value': 42}" |};
               {| levelname := INFO; message := "updated name: 42" |} ] |}).
Proof. reflexivity. Qed.

Example ada_packet_world :
  handle_data ada_packet fresh =
  (inr tt,
   {| userdata := {| ctx := Some sample_job; customer_name := PStr "Ada";
                     customer_phone := PNone; customer_email := PNone;
                     should_submit := false |};
      published := [];
      log := [ {| levelname := INFO;
                  message := "received data: {'field': 'name', 'value': 'Ada'}" |};
               {| levelname := INFO; message := "updated name: Ada" |} ] |}).
Proof. reflexivity. Qed.

Example unknown_packet_world :
  handle_data unknown_packet fresh =
  (inr tt,
   {| userdata := userdata fresh;
      published := [];
      log := [ {| levelname := INFO;
                  message := "received data: {'field': 'unknown', 'value': 'x'}" |};
               {| levelname := ERROR; message := "unknown field: unknown" |} ] |}).
Proof. reflexivity. Qed.

Example garbage_packet_world :
  handle_data {| data := list_byte_of_string "not json" |} fresh =
  (inr tt,
   {| userdata := userdata fresh;
      published := [];
      log := [ {| levelname := ERROR;
                  message := "failed to parse data packet: Expecting value: line 1 column 1 (char 0)" |} ] |}).
Proof. reflexivity. Qed.

Example valueless_packet_world :
  handle_data valueless_packet fresh =
  (inr tt,
   {| userdata := userdata fresh;
      published := [];
      log := [ {| levelname := INFO; message := "received data: {'field': 'phone'}" |};
               {| levelname := ERROR; message := "failed to parse data packet: 'value'" |} ] |}).
Proof. reflexivity. Qed.

Example get_name_unset : get_name fresh = (inr "User's name is None", fresh).
Proof. reflexivity. Qed.

Example scenario_refused_submit :
  fst (submit_form (run [CallUpdateName "Ada"] fresh)) =
  inr "Please provide your phone number.".
Proof. reflexivity. Qed.

Example scenario_broadcasts :
  should_submit (userdata (run scenario fresh)) = true /\
  published_texts (run scenario fresh) =
  [ (snapshot_text (quoted dq "Ada") "null" "null" "false", false);
    (snapshot_text (quoted dq "Ada") (quoted dq "555-1234") "null" "false", false);
    (snapshot_text (quoted dq "Ada") (quoted dq "555-1234")
                   (quoted dq "ada@example.com") "false", false);
    (snapshot_text (quoted dq "Ada") (quoted dq "555-1234")
                   (quoted dq "ada@example.com") "true", false) ].
Proof. split; reflexivity. Qed.

(** C1, as stated, fails.  On the packet [{"field": "name", "value": "Ada"}]
    received in a fresh session the listener stores ["Ada"] as the name, yet
    the channel is as empty as before: no broadcast was triggered. *)
Lemma listener_does_not_broadcast :
  selects ada_packet FName [("field", PStr "name"); ("value", PStr "Ada")] /\
  dict_lookup "value" [("field", PStr "name"); ("value", PStr "Ada")] = Some (PStr "Ada") /\
  customer_name (userdata (snd (handle_data ada_packet fresh))) = PStr "Ada" /\
  published (snd (handle_data ada_packet fresh)) = [] /\
  ~ (exists p, published (snd (handle_data ada_packet fresh)) = (published fresh ++ [p])%list).
Proof.
  split; [split; reflexivity|]. split; [reflexivity|]. split; [reflexivity|].
  split; [reflexivity|]. intros [p Hp]. discriminate Hp.
Qed.

(** C6, at a failing session.  A remote participant sends
    [{"field": "name", "value": 42}] and the user then gives a phone number:
    the snapshot that [update_phone] publishes binds [customer_name] to the
    number 42, which is neither a string nor null. *)
Theorem number_value_is_broadcast :
  customer_name (userdata (run [DataReceived number_packet; CallUpdatePhone "555-1234"] fresh))
    = PInt 42 /\
  published_texts (run [DataReceived number_packet; CallUpdatePhone "555-1234"] fresh) =
    [ (snapshot_text "42" (quoted dq "555-1234") "null" "false", false) ] /\
  ~ fields_typed (userdata (run [DataReceived number_packet; CallUpdatePhone "555-1234"] fresh)).
Proof.
  split; [reflexivity|]. split; [reflexivity|].
  intros Htyped. destruct (Htyped FName) as [H | [s H]]; discriminate H.
Qed.

(** *** Instances

    Each statement above that has hypotheses, at a concrete world and packet
    where they hold. *)

Lemma update_stores_verbatim_empty :
  ctx (userdata fresh) = Some sample_job /\
  fst (update_name "" fresh) = inr "The name is updated to " /\
  customer_name (userdata (snd (update_name "" fresh))) = PStr "" /\
  fst (update_email "" filled) = inr "The email is updated to " /\
  customer_email (userdata (snd (update_email "" filled))) = PStr "".
Proof.
  split; [reflexivity|].
  pose proof (update_stores_verbatim fresh sample_job "" eq_refl) as [[Hr [Hv _]] _].
  pose proof (update_stores_verbatim filled sample_job "" eq_refl) as [_ [_ [Hr' [Hv' _]]]].
  repeat split; assumption.
Defined.

Lemma mutation_broadcasts_once_fresh :
  ctx (userdata fresh) = Some sample_job /\
  exists p,
    published (snd (update_name "Ada" fresh)) = [p] /\
    snapshot_of (userdata (snd (update_name "Ada" fresh))) p.
Proof.
  split; [reflexivity|].
  exact (proj1 (mutation_broadcasts_once fresh sample_job eq_refl) "Ada").
Defined.

Lemma submit_form_validates_filled :
  ctx (userdata filled) = Some sample_job /\
  complete (userdata filled) /\
  fst (submit_form filled) = inr "The form is submitted" /\
  should_submit (userdata (snd (submit_form filled))) = true.
Proof.
  assert (complete (userdata filled)) as Hco by (repeat split; discriminate).
  pose proof (submit_form_validates filled sample_job eq_refl) as [Hiff [Hmark _]].
  split; [reflexivity|]. split; [exact Hco|].
  split; [exact (proj2 Hiff Hco) | exact (proj1 (Hmark Hco))].
Defined.

Lemma listener_stores_value_ada :
  selects ada_packet FName [("field", PStr "name"); ("value", PStr "Ada")] /\
  customer_name (userdata (snd (handle_data ada_packet fresh))) = PStr "Ada" /\
  published (snd (handle_data ada_packet fresh)) = published fresh.
Proof.
  assert (selects ada_packet FName [("field", PStr "name"); ("value", PStr "Ada")])
    as Hsel by (split; reflexivity).
  pose proof (listener_stores_value ada_packet FName _ "Ada" fresh Hsel eq_refl)
    as [_ [[Hv _] [Hp _]]].
  split; [exact Hsel|]. split; [exact Hv | exact Hp].
Defined.

Lemma listener_discards_unknown :
  (exists items,
     decoded unknown_packet = inr (PDict items) /\
     forall f, dict_lookup "field" items <> Some (PStr (selector f))) /\
  fst (handle_data unknown_packet filled) = inr tt /\
  userdata (snd (handle_data unknown_packet filled)) = userdata filled /\
  published (snd (handle_data unknown_packet filled)) = published filled.
Proof.
  assert (exists items,
            decoded unknown_packet = inr (PDict items) /\
            forall f, dict_lookup "field" items <> Some (PStr (selector f))) as Hrej.
  { exists [("field", PStr "unknown"); ("value", PStr "x")].
    split; [reflexivity | intros []; discriminate]. }
  pose proof (listener_discards unknown_packet filled (or_intror Hrej))
    as [Hr [Hu [Hp _]]].
  split; [exact Hrej|]. split; [exact Hr|]. split; [exact Hu | exact Hp].
Defined.

Lemma listener_missing_value_phone :
  selects valueless_packet FPhone [("field", PStr "phone")] /\
  dict_lookup "value" [("field", PStr "phone")] = None /\
  fst (handle_data valueless_packet filled) = inr tt /\
  userdata (snd (handle_data valueless_packet filled)) = userdata filled.
Proof.
  assert (selects valueless_packet FPhone [("field", PStr "phone")])
    as Hsel by (split; reflexivity).
  pose proof (listener_missing_value_atomic valueless_packet FPhone _ filled Hsel eq_refl)
    as [Hrun _].
  split; [exact Hsel|]. split; [reflexivity|].
  rewrite Hrun. split; reflexivity.
Defined.

(** *** Further instances *)

Lemma ada_packet_string_valued : string_valued ada_packet.
Proof.
  intros f items v [Hd _] Hv. vm_compute in Hd. injection Hd as <-.
  cbn in Hv. injection Hv as <-. right. eexists. reflexivity.
Qed.

Lemma resubmit_rebroadcasts_filled :
  ctx (userdata filled) = Some sample_job /\
  complete (userdata filled) /\
  fst (submit_form (snd (submit_form filled))) = inr "The form is submitted" /\
  length (published (snd (submit_form (snd (submit_form filled))))) = 5.
Proof.
  assert (complete (userdata filled)) as Hco by (repeat split; discriminate).
  pose proof (resubmit_rebroadcasts filled sample_job eq_refl Hco) as [Hr _].
  split; [reflexivity|]. split; [exact Hco|]. split; [exact Hr | reflexivity].
Defined.

Lemma update_without_ctx_detached :
  ctx (userdata detached) = None /\
  fst (update_name "Ada" detached) =
    inl (AttributeError "'NoneType' object has no attribute 'room'") /\
  customer_name (userdata (snd (update_name "Ada" detached))) = PStr "Ada".
Proof.
  pose proof (update_without_ctx "Ada" detached eq_refl) as [[Hr [Hv _]] _].
  split; [reflexivity|]. split; [exact Hr | exact Hv].
Defined.

Lemma submit_without_ctx_filled :
  ctx (userdata filled_detached) = None /\
  complete (userdata filled_detached) /\
  should_submit (userdata (snd (submit_form filled_detached))) = true /\
  published (snd (submit_form filled_detached)) = [].
Proof.
  assert (complete (userdata filled_detached)) as Hco by (repeat split; discriminate).
  pose proof (submit_without_ctx filled_detached eq_refl Hco) as [_ [Hs Hp]].
  split; [reflexivity|]. split; [exact Hco|]. split; [exact Hs | exact Hp].
Defined.

Lemma submit_accepts_empty_strings :
  ctx (userdata fresh) = Some sample_job /\
  fst (submit_form (run [CallUpdateName ""; CallUpdatePhone ""; CallUpdateEmail ""] fresh)) =
    inr "The form is submitted".
Proof.
  split; [reflexivity|].
  exact (proj1 (submit_accepts_any_strings "" "" "" fresh sample_job eq_refl)).
Defined.

Lemma listener_null_unsets_submitted :
  selects null_packet FName [("field", PStr "name"); ("value", PNone)] /\
  should_submit (userdata (run scenario fresh)) = true /\
  customer_name (userdata (snd (handle_data null_packet (run scenario fresh)))) = PNone /\
  should_submit (userdata (snd (handle_data null_packet (run scenario fresh)))) = true /\
  fst (submit_form (snd (handle_data null_packet (run scenario fresh)))) <>
    inr "The form is submitted".
Proof.
  assert (selects null_packet FName [("field", PStr "name"); ("value", PNone)])
    as Hsel by (split; reflexivity).
  pose proof (listener_null_unsets null_packet FName _ (run scenario fresh) Hsel eq_refl)
    as [Hf [Hs [Hr _]]].
  split; [exact Hsel|]. split; [reflexivity|]. split; [exact Hf|].
  split; [exact Hs | exact Hr].
Defined.

Lemma listener_agrees_with_tool_ada :
  selects ada_packet FName [("field", PStr "name"); ("value", PStr "Ada")] /\
  userdata (snd (handle_data ada_packet fresh)) = userdata (snd (update_name "Ada" fresh)).
Proof.
  assert (selects ada_packet FName [("field", PStr "name"); ("value", PStr "Ada")])
    as Hsel by (split; reflexivity).
  split; [exact Hsel|].
  exact (listener_agrees_with_tool ada_packet FName _ "Ada" fresh Hsel eq_refl).
Defined.

Lemma session_broadcast_shape_scenario :
  In (snapshot_publish sample_job (userdata (run [CallUpdateName "Ada"] fresh)))
     (published (run scenario fresh)) /\
  reliable (snapshot_publish sample_job (userdata (run [CallUpdateName "Ada"] fresh))) = false /\
  pub_room (snapshot_publish sample_job (userdata (run [CallUpdateName "Ada"] fresh))) =
    "ice-cream-party".
Proof.
  assert (In (snapshot_publish sample_job (userdata (run [CallUpdateName "Ada"] fresh)))
             (published (run scenario fresh))) as Hin by (left; reflexivity).
  pose proof (session_broadcast_shape scenario sample_job _ Hin) as [Hr [Hroom _]].
  split; [exact Hin|]. split; [exact Hr | exact Hroom].
Defined.

Lemma typed_session_ada :
  Forall typed_event [DataReceived ada_packet; CallUpdatePhone "555-1234"] /\
  fields_typed (userdata (run [DataReceived ada_packet; CallUpdatePhone "555-1234"] fresh)).
Proof.
  assert (Forall typed_event [DataReceived ada_packet; CallUpdatePhone "555-1234"]) as Hes.
  { constructor; [exact ada_packet_string_valued|]. constructor; [exact I | constructor]. }
  split; [exact Hes|].
  exact (proj1 (typed_session_typed_broadcasts _ sample_job Hes)).
Defined.

Lemma one_publish_per_update_fresh :
  ctx (userdata fresh) = Some sample_job /\
  length (published
    (run (map event_of_call
            [SetField FName "Ada"; ReadField FName; SetField FName "Grace";
             SetField FPhone "555"]) fresh)) = 3.
Proof.
  split; [reflexivity|].
  exact (one_publish_per_update
           [SetField FName "Ada"; ReadField FName; SetField FName "Grace";
            SetField FPhone "555"] fresh sample_job eq_refl).
Defined.
